(** * sfm-utils: result tracking and the AMQP consumer base class

    A shallow embedding of [sfmutils/result.py] and [sfmutils/consumer.py].
    Python classes become modules, instance attributes become record fields,
    and methods become functions.  Methods of the consumer mutate [self] and
    call into the kombu client library; they live in a small state-and-error
    monad over a world that holds [self], the object allocator and the
    sequence of calls issued to the client library. *)

From Stdlib Require Import DecimalString.
From stdpp Require Import gmap strings list.

(** ** Python values and exceptions *)

(** The attribute values the two files pass around untyped: [None] or a
    [str]. *)
Inductive value :=
| VNone
| VStr (s : string).

#[global] Instance value_eq_dec : EqDecision value.
Proof. solve_decision. Defined.

(** Truth-value testing: [None] and the empty string are false. *)
Definition truthy (v : value) : bool :=
  match v with
  | VNone => false
  | VStr s => bool_decide (s ≠ "")
  end.

(** ["{}".format(v)]. *)
Definition format_value (v : value) : string :=
  match v with
  | VNone => "None"
  | VStr s => s
  end.

(** ["{}".format(b)] for a [bool]. *)
Definition format_bool (b : bool) : string :=
  if b then "True" else "False".

(** ["{}".format(i)] for a non-negative [int]. *)
Definition format_int (i : nat) : string :=
  NilEmpty.string_of_uint (Nat.to_uint i).

Inductive exn :=
| AssertionError
| KeyError (key : string)
| AttributeError (attr : string)
| TypeError
| ClientError (what : string).

Inductive result (A : Type) :=
| Ok (a : A)
| Raise (e : exn).
Arguments Ok {A} a.
Arguments Raise {A} e.

(** [enumerate(l, start)]. *)
Fixpoint enumerate {A} (start : nat) (l : list A) : list (nat * A) :=
  match l with
  | [] => []
  | x :: l' => (start, x) :: enumerate (S start) l'
  end.

(** Number of line breaks in a string. *)
Fixpoint newlines (s : string) : nat :=
  match s with
  | EmptyString => 0
  | String a s' => (if Ascii.eqb a (Ascii.ascii_of_nat 10) then 1 else 0) + newlines s'
  end.

Definition multi_line (s : string) : bool := bool_decide (0 < newlines s).

(** A value that is missing ([None]) or empty. *)
Definition empty_or_absent (v : value) : Prop := v = VNone ∨ v = VStr "".

(** ** result.py *)

Module Msg.

Record t := { code : value; message : value }.

(** [Msg.__init__]: both assertions, then the two assignments. *)
Definition __init__ (code message : value) : result t :=
  if truthy code then
    if truthy message then Ok {| code := code; message := message |}
    else Raise AssertionError
  else Raise AssertionError.

(** [to_map]: the dict with the two keys ["code"] and ["message"]. *)
Definition to_map (self : t) : gmap string value :=
  {[ "code" := code self; "message" := message self ]}.

End Msg.

Module BaseResult.

(** [started] and [ended] are [None] until the caller assigns a timestamp,
    held here as the text ["{}".format] gives for it. *)
Record t := {
  success : bool;
  started : value;
  ended : value;
  infos : list Msg.t;
  warnings : list Msg.t;
  errors : list Msg.t
}.

Definition __init__ : t :=
  {| success := true; started := VNone; ended := VNone;
     infos := []; warnings := []; errors := [] |}.

Definition __nonzero__ (self : t) : nat :=
  if success self then 1 else 0.

(** Truth-value testing of an instance, by the protocol [__nonzero__]
    belongs to: the method is called and its result compared with zero. *)
Definition truth (self : t) : bool :=
  negb (Nat.eqb (__nonzero__ self) 0).

(** What a subclass supplies: [_result_name] and [_addl_str]. *)
Class Specialization := {
  _result_name : t → string;
  _addl_str : t → string
}.

(** The base class returns the empty string for both. *)
Definition base : Specialization :=
  {| _result_name := λ _, ""; _addl_str := λ _, "" |}.

(** One iteration of the loop of [_str_messages]. *)
Definition str_entry (i : nat) (msg : Msg.t) : string :=
  "(" +:+ format_int i +:+ ") [" +:+ format_value (Msg.code msg) +:+ "] "
      +:+ format_value (Msg.message msg).

(** [_str_messages]: [msg_str] is the accumulator the loop extends. *)
Definition _str_messages (messages : list Msg.t) (name : string) : string :=
  let msg_str := "" in
  let msg_str :=
    match messages with
    | [] => msg_str
    | _ => msg_str +:+ (" " +:+ name +:+ " messages are:")
    end in
  fold_left (λ msg_str '(i, msg), msg_str +:+ str_entry i msg)
            (enumerate 1 messages) msg_str.

Section Str.
Context {spec : Specialization}.

Definition __str__ (self : t) : string :=
  let str_text :=
    _result_name self +:+ " response is " +:+ format_bool (success self) +:+ "." in
  let str_text :=
    if truthy (started self)
    then str_text +:+ (" Started: " +:+ format_value (started self))
    else str_text in
  let str_text :=
    if truthy (ended self)
    then str_text +:+ (" Ended: " +:+ format_value (ended self))
    else str_text in
  let str_text := str_text +:+ _str_messages (infos self) "Informational" in
  let str_text := str_text +:+ _str_messages (warnings self) "Warning" in
  let str_text := str_text +:+ _str_messages (errors self) "Error" in
  let str_text := str_text +:+ _addl_str self in
  str_text.

End Str.

(** *** The summary as the specification words it *)

Definition status_line {spec : Specialization} (self : t) : string :=
  _result_name self +:+ " response is " +:+ format_bool (success self) +:+ ".".

Definition timestamp_part (label : string) (ts : value) : string :=
  if truthy ts then label +:+ format_value ts else "".

(** Entries [(index) [code] message], numbered from 1 in list order. *)
Definition entries (messages : list Msg.t) : list string :=
  imap (λ k msg, str_entry (S k) msg) messages.

Definition concat_strings (l : list string) : string :=
  foldr String.append "" l.

Definition block (name : string) (messages : list Msg.t) : string :=
  match messages with
  | [] => ""
  | _ => " " +:+ name +:+ " messages are:" +:+ concat_strings (entries messages)
  end.

Definition summary {spec : Specialization} (self : t) : string :=
  status_line self
  +:+ timestamp_part " Started: " (started self)
  +:+ timestamp_part " Ended: " (ended self)
  +:+ block "Informational" (infos self)
  +:+ block "Warning" (warnings self)
  +:+ block "Error" (errors self)
  +:+ _addl_str self.

(** Line breaks in the texts the formatter is handed: the result name, the
    timestamps that are set, the codes and texts of the messages, and the
    trailer. *)
Definition msg_newlines (msg : Msg.t) : nat :=
  newlines (format_value (Msg.code msg)) + newlines (format_value (Msg.message msg)).

Definition supplied_newlines {spec : Specialization} (self : t) : nat :=
  newlines (_result_name self)
  + newlines (timestamp_part "" (started self))
  + newlines (timestamp_part "" (ended self))
  + sum_list (msg_newlines <$> infos self)
  + sum_list (msg_newlines <$> warnings self)
  + sum_list (msg_newlines <$> errors self)
  + newlines (_addl_str self).

(** A result carrying the single error [Msg("E001", "disk full")]. *)
Definition disk_full : t :=
  {| success := true; started := VNone; ended := VNone;
     infos := []; warnings := [];
     errors := [ {| Msg.code := VStr "E001"; Msg.message := VStr "disk full" |} ] |}.

End BaseResult.

(** ** consumer.py *)

Definition EXCHANGE : string := "sfm_exchange".

Module MqConfig.

Record t := {
  host : value;
  username : value;
  password : value;
  exchange : value;
  queues : gmap string (list string)
}.

Definition __init__ (host username password exchange : value)
    (queues : gmap string (list string)) : t :=
  {| host := host; username := username; password := password;
     exchange := exchange; queues := queues |}.

End MqConfig.

(** *** The client library as the wrapper sees it

    Objects of kombu are records of the arguments they were built from;
    [Connection], [Producer] and [Consumer] objects also carry the identity
    the allocator gave them.  An [event] is one call into the library that
    is recorded: building an object with identity, and every method call.
    [Exchange] and [Queue] objects are plain values; building one is not
    recorded. *)
Module kombu.

Definition Channel := nat.

Record Connection := {
  conn_id : nat;
  transport : string;
  hostname : value;
  userid : value;
  conn_password : value
}.

Record Exchange := { ex_name : value; ex_type : string; ex_durable : bool }.

Record Queue := {
  q_name : string;
  q_exchange : option Exchange;
  q_channel : Channel;
  q_durable : bool
}.

Record Producer := { prod_id : nat; prod_channel : Connection }.

#[global] Instance Exchange_eq_dec : EqDecision Exchange.
Proof. solve_decision. Defined.

#[global] Instance Queue_eq_dec : EqDecision Queue.
Proof. solve_decision. Defined.

(** The bound methods handed to the library. *)
Inductive method :=
| self_callback
| self_on_connection_error.

Record Consumer := {
  cons_id : nat;
  cons_queues : list Queue;
  cons_callbacks : list method;
  cons_auto_declare : bool
}.

(** A delivered message object: its delivery metadata and its tag. *)
Record Message := {
  delivery_info : gmap string string;
  delivery_tag : nat
}.

Inductive event :=
| NewConnection (c : Connection)
| CloneConnection (source new : Connection)
| EnsureConnection (c : Connection) (errback : method) (max_retries : option nat)
| CloseConnection (c : Connection)
| NewProducer (p : Producer)
| ExchangeDeclare (e : Exchange) (channel : Channel)
| QueueDeclare (q : Queue)
| QueueBindTo (q : Queue) (e : option Exchange) (routing_key : string)
| NewConsumer (c : Consumer)
| Qos (c : Consumer) (prefetch_count : nat) (apply_global : bool)
| Ack (m : Message).

End kombu.

(** *** The instance and the world it lives in *)

(** The attributes of a consumer instance.  [_producer_connection] is the
    class attribute of [ConsumerProducerMixin], [None] until assigned. *)
Record instance := {
  mq_config : option MqConfig.t;
  connection : option kombu.Connection;
  exchange : option kombu.Exchange;
  message : option string;
  routing_key : option string;
  _producer_connection : option kombu.Connection
}.

Definition blank : instance :=
  {| mq_config := None; connection := None; exchange := None;
     message := None; routing_key := None; _producer_connection := None |}.

Record world := {
  self : instance;
  next_id : nat;
  calls : list kombu.event
}.

(** Computations: a result or a raised exception, and the world after. *)
Definition M (A : Type) : Type := world → result A * world.

#[global] Instance M_ret : MRet M := λ A a w, (Ok a, w).

#[global] Instance M_bind : MBind M := λ A B k m w,
  match m w with
  | (Ok a, w') => k a w'
  | (Raise e, w') => (Raise e, w')
  end.

Definition raise {A} (e : exn) : M A := λ w, (Raise e, w).

Definition get_self : M instance := λ w, (Ok (self w), w).

Definition modify_self (f : instance → instance) : M unit :=
  λ w, (Ok tt, {| self := f (self w); next_id := next_id w; calls := calls w |}).

Definition allocate : M nat :=
  λ w, (Ok (next_id w), {| self := self w; next_id := S (next_id w); calls := calls w |}).

Definition record (e : kombu.event) (w : world) : world :=
  {| self := self w; next_id := next_id w; calls := calls w ++ [e] |}.

(** Attribute assignments [self.x = v]. *)
Definition set_mq_config (v : option MqConfig.t) : M unit :=
  modify_self (λ s, {| mq_config := v; connection := connection s;
    exchange := exchange s; message := message s; routing_key := routing_key s;
    _producer_connection := _producer_connection s |}).

Definition set_connection (v : option kombu.Connection) : M unit :=
  modify_self (λ s, {| mq_config := mq_config s; connection := v;
    exchange := exchange s; message := message s; routing_key := routing_key s;
    _producer_connection := _producer_connection s |}).

Definition set_exchange (v : option kombu.Exchange) : M unit :=
  modify_self (λ s, {| mq_config := mq_config s; connection := connection s;
    exchange := v; message := message s; routing_key := routing_key s;
    _producer_connection := _producer_connection s |}).

Definition set_message (v : option string) : M unit :=
  modify_self (λ s, {| mq_config := mq_config s; connection := connection s;
    exchange := exchange s; message := v; routing_key := routing_key s;
    _producer_connection := _producer_connection s |}).

Definition set_routing_key (v : option string) : M unit :=
  modify_self (λ s, {| mq_config := mq_config s; connection := connection s;
    exchange := exchange s; message := message s; routing_key := v;
    _producer_connection := _producer_connection s |}).

Definition set_producer_connection (v : option kombu.Connection) : M unit :=
  modify_self (λ s, {| mq_config := mq_config s; connection := connection s;
    exchange := exchange s; message := message s; routing_key := routing_key s;
    _producer_connection := v |}).

(** [for x in l: body(x)]. *)
Fixpoint for_each {A} (l : list A) (body : A → M unit) : M unit :=
  match l with
  | [] => mret tt
  | x :: l' => body x;; for_each l' body
  end.

(** The behaviour of the library and the broker behind it: given the calls
    issued so far, whether the next call raises. *)
Definition environment := list kombu.event → kombu.event → option exn.

Definition reliable : environment := λ _ _, None.

Section Client.
Variable env : environment.

(** One call into the library: it is recorded, then returns or raises as
    the environment decides. *)
Definition call (e : kombu.event) : M unit := λ w,
  match env (calls w) e with
  | None => (Ok tt, record e w)
  | Some x => (Raise x, record e w)
  end.

(** [Connection(transport=..., hostname=..., userid=..., password=...)]. *)
Definition new_Connection (transport : string) (hostname userid password : value)
    : M kombu.Connection :=
  id ← allocate;
  let c := {| kombu.conn_id := id; kombu.transport := transport;
              kombu.hostname := hostname; kombu.userid := userid;
              kombu.conn_password := password |} in
  call (kombu.NewConnection c);;
  mret c.

(** [conn.clone()]: a new connection object with the same parameters. *)
Definition clone (conn : kombu.Connection) : M kombu.Connection :=
  id ← allocate;
  let c := {| kombu.conn_id := id; kombu.transport := kombu.transport conn;
              kombu.hostname := kombu.hostname conn; kombu.userid := kombu.userid conn;
              kombu.conn_password := kombu.conn_password conn |} in
  call (kombu.CloneConnection conn c);;
  mret c.

(** [Producer(channel)]. *)
Definition new_Producer (channel : kombu.Connection) : M kombu.Producer :=
  id ← allocate;
  let p := {| kombu.prod_id := id; kombu.prod_channel := channel |} in
  call (kombu.NewProducer p);;
  mret p.

(** The [Consumer] factory the consume loop passes to [get_consumers]. *)
Definition new_Consumer (queues : list kombu.Queue) (callbacks : list kombu.method)
    (auto_declare : bool) : M kombu.Consumer :=
  id ← allocate;
  let c := {| kombu.cons_id := id; kombu.cons_queues := queues;
              kombu.cons_callbacks := callbacks;
              kombu.cons_auto_declare := auto_declare |} in
  call (kombu.NewConsumer c);;
  mret c.

End Client.

Module ConsumerProducerMixin.
Section Methods.
Variable env : environment.
(** [connect_max_retries], inherited from kombu's [ConsumerMixin]. *)
Variable connect_max_retries : option nat.

Definition on_consume_end (connection : option kombu.Connection)
    (channel : kombu.Channel) : M unit :=
  self ← get_self;
  match _producer_connection self with
  | Some pc =>
      call env (kombu.CloseConnection pc);;
      set_producer_connection None
  | None => mret tt
  end.

(** Both branches return what [self._producer_connection] holds on return. *)
Definition producer_connection : M kombu.Connection :=
  self ← get_self;
  match _producer_connection self with
  | None =>
      match connection self with
      | None => raise (AttributeError "clone")
      | Some c =>
          conn ← clone env c;
          call env (kombu.EnsureConnection conn kombu.self_on_connection_error
                      connect_max_retries);;
          set_producer_connection (Some conn);;
          mret conn
      end
  | Some pc => mret pc
  end.

Definition producer : M kombu.Producer :=
  pc ← producer_connection;
  new_Producer env pc.

End Methods.
End ConsumerProducerMixin.

Module BaseConsumer.
Section Methods.
Variable env : environment.

(** An [MqConfig] object is always true; its host, user name and password
    are tested in turn by the chain of [and]. *)
Definition __init__ (mq_config : option MqConfig.t) : M unit :=
  set_mq_config mq_config;;
  match mq_config with
  | Some cfg =>
      if truthy (MqConfig.host cfg) && truthy (MqConfig.username cfg)
         && truthy (MqConfig.password cfg)
      then
        conn ← new_Connection env "librabbitmq" (MqConfig.host cfg)
                 (MqConfig.username cfg) (MqConfig.password cfg);
        set_connection (Some conn);;
        set_exchange (Some {| kombu.ex_name := MqConfig.exchange cfg;
                              kombu.ex_type := "topic";
                              kombu.ex_durable := true |})
      else
        set_connection None;;
        set_exchange None
  | None =>
      set_connection None;;
      set_exchange None
  end;;
  set_message None;;
  set_routing_key None.

(** The body of the loop over [self.mq_config.queues.items()]. *)
Definition declare_and_bind (channel : kombu.Channel) (queue_name : string)
    (routing_keys : list string) : M kombu.Queue :=
  self ← get_self;
  let queue := {| kombu.q_name := queue_name; kombu.q_exchange := exchange self;
                  kombu.q_channel := channel; kombu.q_durable := true |} in
  call env (kombu.QueueDeclare queue);;
  for_each routing_keys (λ routing_key,
    self ← get_self;
    call env (kombu.QueueBindTo queue (exchange self) routing_key));;
  mret queue.

Fixpoint declare_queues (channel : kombu.Channel)
    (items : list (string * list string)) (queues : list kombu.Queue)
    : M (list kombu.Queue) :=
  match items with
  | [] => mret queues
  | (queue_name, routing_keys) :: items' =>
      queue ← declare_and_bind channel queue_name routing_keys;
      declare_queues channel items' (queues ++ [queue])
  end.

(** [assert self.mq_config]; [self.exchange(channel).declare()], where
    calling [None] is a [TypeError]; the loop; the consumer and its
    prefetch setting.  The [log.debug] lines have no effect and are left
    out. *)
Definition get_consumers
    (Consumer : list kombu.Queue → list kombu.method → bool → M kombu.Consumer)
    (channel : kombu.Channel) : M (list kombu.Consumer) :=
  self ← get_self;
  match mq_config self with
  | None => raise AssertionError
  | Some cfg =>
      match exchange self with
      | None => raise TypeError
      | Some ex => call env (kombu.ExchangeDeclare ex channel)
      end;;
      queues ← declare_queues channel (map_to_list (MqConfig.queues cfg)) [];
      consumer ← Consumer queues [kombu.self_callback] false;
      call env (kombu.Qos consumer 1 true);;
      mret [consumer]
  end.

(** The hook a subclass overrides. *)
Variable on_message : M unit.

(** [delivery_info["routing_key"]] raises [KeyError] when the key is
    missing, before anything is assigned. *)
Definition _callback (message : string) (message_obj : kombu.Message) : M unit :=
  match kombu.delivery_info message_obj !! "routing_key" with
  | None => raise (KeyError "routing_key")
  | Some rk =>
      set_routing_key (Some rk);;
      set_message (Some message);;
      call env (kombu.Ack message_obj);;
      on_message
  end.

End Methods.

(** [on_message] of the base class: [pass]. *)
Definition on_message : M unit := mret tt.

End BaseConsumer.

(** *** Reading the sequence of calls *)

(** The world with further calls recorded. *)
Definition extend (es : list kombu.event) (w : world) : world :=
  {| self := self w; next_id := next_id w; calls := calls w ++ es |}.

(** The world after an object was allocated and the call building it was
    recorded. *)
Definition allocated (e : kombu.event) (w : world) : world :=
  {| self := self w; next_id := S (next_id w); calls := calls w ++ [e] |}.

(** The connection object [clone] builds in a world from a connection. *)
Definition clone_of (conn : kombu.Connection) (w : world) : kombu.Connection :=
  {| kombu.conn_id := next_id w; kombu.transport := kombu.transport conn;
     kombu.hostname := kombu.hostname conn; kombu.userid := kombu.userid conn;
     kombu.conn_password := kombu.conn_password conn |}.

(** The instance with its cached publish connection replaced. *)
Definition with_producer_connection (v : option kombu.Connection) (s : instance)
    : instance :=
  {| mq_config := mq_config s; connection := connection s; exchange := exchange s;
     message := message s; routing_key := routing_key s;
     _producer_connection := v |}.

(** An environment in which no call raises. *)
Definition never_raises (env : environment) : Prop := ∀ h e, env h e = None.

(** The queues declared, the bindings declared, the consumers built and
    the prefetch settings made by a sequence of calls, in order. *)
Definition declared_queues (es : list kombu.event) : list kombu.Queue :=
  omap (λ e, match e with kombu.QueueDeclare q => Some q | _ => None end) es.

Definition bindings (es : list kombu.event)
    : list (kombu.Queue * option kombu.Exchange * string) :=
  omap (λ e, match e with
             | kombu.QueueBindTo q ex rk => Some (q, ex, rk)
             | _ => None
             end) es.

Definition consumers_built (es : list kombu.event) : list kombu.Consumer :=
  omap (λ e, match e with kombu.NewConsumer c => Some c | _ => None end) es.

Definition qos_settings (es : list kombu.event) : list (kombu.Consumer * nat * bool) :=
  omap (λ e, match e with
             | kombu.Qos c n g => Some (c, n, g)
             | _ => None
             end) es.

Definition closed_connections (es : list kombu.event) : list kombu.Connection :=
  omap (λ e, match e with kombu.CloseConnection c => Some c | _ => None end) es.

(** The durable queue [get_consumers] builds for a queue name. *)
Definition durable_queue (ex : option kombu.Exchange) (channel : kombu.Channel)
    (queue_name : string) : kombu.Queue :=
  {| kombu.q_name := queue_name; kombu.q_exchange := ex;
     kombu.q_channel := channel; kombu.q_durable := true |}.

(** The declaration of a queue followed by its bindings, for each item. *)
Definition declarations (ex : option kombu.Exchange) (channel : kombu.Channel)
    (items : list (string * list string)) : list kombu.event :=
  items ≫= λ '(queue_name, routing_keys),
    kombu.QueueDeclare (durable_queue ex channel queue_name)
    :: (kombu.QueueBindTo (durable_queue ex channel queue_name) ex <$> routing_keys).

(** The bindings [get_consumers] declares for the items of a configuration. *)
Definition item_bindings (ex : option kombu.Exchange) (channel : kombu.Channel)
    (items : list (string * list string))
    : list (kombu.Queue * option kombu.Exchange * string) :=
  items ≫= λ '(queue_name, routing_keys),
    (λ rk, (durable_queue ex channel queue_name, ex, rk)) <$> routing_keys.

(** A queue configuration is valid when no queue lists a routing-key
    pattern twice. *)
Definition valid_queues (queues : gmap string (list string)) : Prop :=
  map_Forall (λ _ routing_keys, NoDup routing_keys) queues.

(** A configuration lacking the host, the user name or the password. *)
Definition incomplete (cfg : MqConfig.t) : Prop :=
  empty_or_absent (MqConfig.host cfg) ∨ empty_or_absent (MqConfig.username cfg)
  ∨ empty_or_absent (MqConfig.password cfg).

(** A consume session in which the handler publishes [n] times: [n]
    accesses of [producer], then [on_consume_end]. *)
Fixpoint publish_times (env : environment) (retries : option nat) (n : nat) : M unit :=
  match n with
  | 0 => mret tt
  | S n' =>
      ConsumerProducerMixin.producer env retries;;
      publish_times env retries n'
  end.

Definition session (env : environment) (retries : option nat) (n : nat)
    (conn : option kombu.Connection) (channel : kombu.Channel) : M unit :=
  publish_times env retries n;;
  ConsumerProducerMixin.on_consume_end env conn channel.

(** *** Sample inputs *)

Definition fresh_world : world := {| self := blank; next_id := 0; calls := [] |}.

Definition sample_config : MqConfig.t :=
  MqConfig.__init__ (VStr "mq") (VStr "sfm_user") (VStr "secret") (VStr EXCHANGE)
    (<["harvester" := ["harvest.start.twitter.*"; "harvest.stop.twitter"]]>
       (<["loader" := ["warc_created"]]> ∅)).

Definition hostless_config : MqConfig.t :=
  MqConfig.__init__ VNone (VStr "sfm_user") (VStr "secret") (VStr EXCHANGE) ∅.

(** The world after [BaseConsumer(sample_config)] on a reliable client. *)
Definition configured_world : world :=
  (BaseConsumer.__init__ reliable (Some sample_config) fresh_world).2.

(** The same world after one access of [producer]. *)
Definition publishing_world : world :=
  (ConsumerProducerMixin.producer reliable None configured_world).2.

Definition sample_message : kombu.Message :=
  {| kombu.delivery_info := {[ "routing_key" := "harvest.start.twitter.search" ]};
     kombu.delivery_tag := 1 |}.

(** A hook that fails. *)
Definition failing_hook : M unit := raise (ClientError "handler failed").

(** *** Startup, deliveries and failing clients *)

(** The consumer [get_consumers] builds in a world, and the calls it sets
    out to issue, in order. *)
Definition startup_consumer (ex : kombu.Exchange) (channel : kombu.Channel)
    (cfg : MqConfig.t) (w : world) : kombu.Consumer :=
  {| kombu.cons_id := next_id w;
     kombu.cons_queues :=
       durable_queue (Some ex) channel <$> (map_to_list (MqConfig.queues cfg)).*1;
     kombu.cons_callbacks := [kombu.self_callback];
     kombu.cons_auto_declare := false |}.




(** The instance after [_callback] stored a message and its routing key. *)
Definition store_delivery (body : string) (rk : string) (s : instance) : instance :=
  {| mq_config := mq_config s; connection := connection s; exchange := exchange s;
     message := Some body; routing_key := Some rk;
     _producer_connection := _producer_connection s |}.

(** The consume loop handing deliveries to [_callback], one after the
    other, each as the raw message and its message object. *)
Definition deliver_all (env : environment) (on_message : M unit)
    (deliveries : list (string * kombu.Message)) : M unit :=
  for_each deliveries (λ '(body, message_obj),
    BaseConsumer._callback env on_message body message_obj).

(** The instance [__init__] leaves when the configuration is unusable. *)
Definition inert (mq_config : option MqConfig.t) (s : instance) : instance :=
  {| mq_config := mq_config; connection := None; exchange := None;
     message := None; routing_key := None;
     _producer_connection := _producer_connection s |}.

(** Clients on which one kind of call raises. *)
Definition broker_down : environment := λ _ e,
  match e with
  | kombu.EnsureConnection _ _ _ => Some (ClientError "connection refused")
  | _ => None
  end.

Definition close_fails : environment := λ _ e,
  match e with
  | kombu.CloseConnection _ => Some (ClientError "close failed")
  | _ => None
  end.


(** More sample inputs. *)
Definition sample_exchange : kombu.Exchange :=
  {| kombu.ex_name := VStr EXCHANGE; kombu.ex_type := "topic";
     kombu.ex_durable := true |}.

Definition repeated_config : MqConfig.t :=
  MqConfig.__init__ (VStr "mq") (VStr "sfm_user") (VStr "secret") (VStr EXCHANGE)
    (<["harvester" := ["harvest.#"; "harvest.#"]]> (<["idle" := []]> ∅)).

Definition repeated_world : world :=
  (BaseConsumer.__init__ reliable (Some repeated_config) fresh_world).2.

Definition keyless_message : kombu.Message :=
  {| kombu.delivery_info := {[ "exchange" := EXCHANGE ]}; kombu.delivery_tag := 2 |}.

Definition stop_message : kombu.Message :=
  {| kombu.delivery_info := {[ "routing_key" := "harvest.stop.twitter" ]};
     kombu.delivery_tag := 3 |}.

Definition timed_result : BaseResult.t :=
  {| BaseResult.success := false; BaseResult.started := VStr "2016-01-01 12:00:00";
     BaseResult.ended := VNone; BaseResult.infos := []; BaseResult.warnings := [];
     BaseResult.errors := [] |}.

(** * Properties of result.py *)

Module ResultProperties.
Import BaseResult.

Lemma append_cons (x : Ascii.ascii) (a b : string) :
  String x a +:+ b = String x (a +:+ b).
Proof. reflexivity. Qed.

Lemma append_assoc (a b c : string) : (a +:+ b) +:+ c = a +:+ (b +:+ c).
Proof.
  induction a as [|x a IH]; [done|].
  rewrite !append_cons. by f_equal.
Qed.

Lemma append_empty_r (a : string) : a +:+ "" = a.
Proof.
  induction a as [|x a IH]; [done|].
  rewrite append_cons. by f_equal.
Qed.

Lemma newlines_append (a b : string) :
  newlines (a +:+ b) = newlines a + newlines b.
Proof.
  induction a as [|x a IH]; [done|].
  rewrite append_cons. simpl. rewrite IH. lia.
Qed.

Lemma newlines_uint (d : Decimal.uint) : newlines (NilEmpty.string_of_uint d) = 0.
Proof. induction d; simpl; auto. Qed.

Lemma newlines_format_int (i : nat) : newlines (format_int i) = 0.
Proof. apply newlines_uint. Qed.

Lemma newlines_format_bool (b : bool) : newlines (format_bool b) = 0.
Proof. by destruct b. Qed.

Lemma concat_strings_cons (s : string) (l : list string) :
  concat_strings (s :: l) = s +:+ concat_strings l.
Proof. reflexivity. Qed.

Lemma concat_strings_app (l1 l2 : list string) :
  concat_strings (l1 ++ l2) = concat_strings l1 +:+ concat_strings l2.
Proof.
  induction l1 as [|s l1 IH]; simpl; [done|].
  by rewrite IH, append_assoc.
Qed.

(** The loop of [_str_messages] appends the entries to what it started
    with, whatever the first index. *)
Lemma loop_appends_entries (messages : list Msg.t) (start : nat) (acc : string) :
  fold_left (λ msg_str '(i, msg), msg_str +:+ str_entry i msg)
            (enumerate start messages) acc
  = acc +:+ concat_strings (imap (λ k msg, str_entry (start + k) msg) messages).
Proof.
  revert start acc. induction messages as [|m l IH]; intros start acc.
  - simpl. by rewrite append_empty_r.
  - simpl. rewrite IH, append_assoc. do 3 f_equal.
    + f_equal. lia.
    + apply imap_ext. intros k x _. simpl. f_equal. lia.
Qed.

Lemma _str_messages_block (messages : list Msg.t) (name : string) :
  _str_messages messages name = block name messages.
Proof.
  unfold _str_messages, block, entries.
  rewrite loop_appends_entries.
  destruct messages as [|m l]; [done|].
  change ("" +:+ ?x) with x. by rewrite !append_assoc.
Qed.

Lemma timestamp_part_append (acc label : string) (ts : value) :
  (if truthy ts then acc +:+ (label +:+ format_value ts) else acc)
  = acc +:+ timestamp_part label ts.
Proof.
  unfold timestamp_part. destruct (truthy ts); [done|].
  by rewrite append_empty_r.
Qed.

(** [__str__] computes the summary the specification describes. *)
Lemma str_is_summary `{Specialization} (r : t) : __str__ r = summary r.
Proof.
  unfold __str__, summary, status_line.
  rewrite !timestamp_part_append, !_str_messages_block.
  by rewrite !append_assoc.
Qed.

Lemma truthy_false (v : value) : truthy v = false ↔ empty_or_absent v.
Proof.
  unfold empty_or_absent. destruct v as [|s]; simpl.
  - naive_solver.
  - rewrite bool_decide_eq_false. split.
    + intros Hs. right. f_equal. by destruct (decide (s = "")).
    + intros [?|[= ->]]; [done | tauto].
Qed.

Lemma newlines_str_entry (i : nat) (msg : Msg.t) :
  newlines (str_entry i msg) = msg_newlines msg.
Proof.
  unfold str_entry, msg_newlines.
  rewrite !newlines_append, newlines_format_int. simpl. lia.
Qed.

Lemma newlines_entries (f : nat → nat) (messages : list Msg.t) :
  newlines (concat_strings (imap (λ k msg, str_entry (f k) msg) messages))
  = sum_list (msg_newlines <$> messages).
Proof.
  revert f. induction messages as [|m l IH]; intros f; [done|].
  rewrite imap_cons, concat_strings_cons, fmap_cons.
  rewrite newlines_append, newlines_str_entry. simpl. f_equal.
  apply (IH (f ∘ S)).
Qed.

Lemma newlines_block (name : string) (messages : list Msg.t) :
  newlines name = 0 →
  newlines (block name messages) = sum_list (msg_newlines <$> messages).
Proof.
  intros Hname. unfold block, entries.
  destruct messages as [|m l]; [done|].
  rewrite !newlines_append, Hname, (newlines_entries S). simpl. lia.
Qed.

Lemma newlines_timestamp_part (label : string) (ts : value) :
  newlines label = 0 →
  newlines (timestamp_part label ts) = newlines (timestamp_part "" ts).
Proof.
  intros Hl. unfold timestamp_part. destruct (truthy ts); [|done].
  rewrite !newlines_append, Hl. done.
Qed.

(** The entry of the message at position [k] of a list, in its block. *)
Lemma block_entry (name : string) (messages : list Msg.t) (k : nat) (msg : Msg.t) :
  messages !! k = Some msg →
  block name messages
  = " " +:+ name +:+ " messages are:"
    +:+ concat_strings (take k (entries messages))
    +:+ str_entry (S k) msg
    +:+ concat_strings (drop (S k) (entries messages)).
Proof.
  intros Hk. unfold block.
  assert (Hentry : entries messages !! k = Some (str_entry (S k) msg)).
  { unfold entries. by rewrite list_lookup_imap, Hk. }
  destruct messages as [|m l]; [done|].
  rewrite <- (take_drop_middle _ _ _ Hentry) at 1.
  by rewrite concat_strings_app.
Qed.

Example str_entry_disk_full :
  str_entry 1 {| Msg.code := VStr "E001"; Msg.message := VStr "disk full" |}
  = "(1) [E001] disk full".
Proof. reflexivity. Qed.

Example str_fresh_result : @__str__ base __init__ = " response is True.".
Proof. reflexivity. Qed.

(** C1: the truth value of a result is its [success] flag: false when
    [success] is [False], true when it is [True]. *)
Theorem truthiness_is_success (r : t) : truth r = success r.
Proof. unfold truth, __nonzero__. by destruct (success r). Qed.

(** C8: [Msg.__init__] raises [AssertionError] whenever the code or the
    message text is empty or absent, and a [Msg] it does construct carries
    the code and text it was given, neither empty nor absent. *)
Theorem Msg_init_rejects_empty (code message : value) :
  (empty_or_absent code ∨ empty_or_absent message →
   Msg.__init__ code message = Raise AssertionError)
  ∧ (∀ msg, Msg.__init__ code message = Ok msg →
       Msg.code msg = code ∧ Msg.message msg = message
       ∧ ¬ empty_or_absent (Msg.code msg) ∧ ¬ empty_or_absent (Msg.message msg)).
Proof.
  unfold Msg.__init__. split.
  - intros [Hc|Hm].
    + apply truthy_false in Hc. by rewrite Hc.
    + apply truthy_false in Hm. rewrite Hm. by destruct (truthy code).
  - intros msg Hmsg.
    destruct (truthy code) eqn:Hc; [|done].
    destruct (truthy message) eqn:Hm; [|done].
    injection Hmsg as <-. simpl. repeat split.
    + rewrite <- truthy_false. congruence.
    + rewrite <- truthy_false. congruence.
Qed.

Lemma Msg_init_rejects_empty_witness :
  Msg.__init__ (VStr "") (VStr "disk full") = Raise AssertionError
  ∧ Msg.__init__ (VStr "E001") VNone = Raise AssertionError
  ∧ ¬ empty_or_absent (VStr "E001").
Proof.
  split; [|split].
  - apply (Msg_init_rejects_empty (VStr "") (VStr "disk full")).
    left. right. reflexivity.
  - apply (Msg_init_rejects_empty (VStr "E001") VNone).
    right. left. reflexivity.
  - apply (proj2 (Msg_init_rejects_empty (VStr "E001") (VStr "disk full"))
             {| Msg.code := VStr "E001"; Msg.message := VStr "disk full" |}).
    reflexivity.
Defined.

(** C9, as stated, fails: the summary of a result with the one error
    [Msg("E001", "disk full")] is a single line. *)
Lemma str_disk_full_is_one_line :
  @__str__ base disk_full
  = " response is True. Error messages are:(1) [E001] disk full"
  ∧ multi_line (@__str__ base disk_full) = false.
Proof. split; reflexivity. Qed.

(** C9, amended: for every result, [__str__] renders the status line (result
    name and success value), the start and end timestamps when set, one block
    per non-empty message list in the order info, warning, error with entries
    [(index) [code] message] numbered from 1 in list order, and the trailer;
    it adds no line break of its own; and the entry of the error at position
    [k] stands in the error block, after the info and warning blocks. *)
Theorem str_renders_summary `{Specialization} (r : t) :
  __str__ r = summary r
  ∧ newlines (__str__ r) = supplied_newlines r
  ∧ (∀ k msg, errors r !! k = Some msg →
       __str__ r
       = (status_line r +:+ timestamp_part " Started: " (started r)
            +:+ timestamp_part " Ended: " (ended r)
            +:+ block "Informational" (infos r) +:+ block "Warning" (warnings r))
         +:+ " Error messages are:"
         +:+ concat_strings (take k (entries (errors r)))
         +:+ str_entry (S k) msg
         +:+ concat_strings (drop (S k) (entries (errors r)))
         +:+ _addl_str r).
Proof.
  split; [apply str_is_summary|]. split.
  - rewrite str_is_summary. unfold summary, supplied_newlines, status_line.
    rewrite !newlines_append, newlines_format_bool.
    rewrite (newlines_timestamp_part " Started: ") by done.
    rewrite (newlines_timestamp_part " Ended: ") by done.
    rewrite !newlines_block by done.
    simpl. lia.
  - intros k msg Hk. rewrite str_is_summary. unfold summary.
    rewrite (block_entry "Error" _ _ _ Hk).
    by rewrite !append_assoc.
Qed.

End ResultProperties.

(** * Properties of consumer.py *)

Module ConsumerProperties.

Lemma bind_unfold {A B} (m : M A) (k : A → M B) (w : world) :
  (m ≫= k) w
  = match m w with
    | (Ok a, w') => k a w'
    | (Raise e, w') => (Raise e, w')
    end.
Proof. reflexivity. Qed.

Lemma extend_nil (w : world) : extend [] w = w.
Proof. destruct w. unfold extend. simpl. by rewrite app_nil_r. Qed.

Lemma extend_extend (es1 es2 : list kombu.event) (w : world) :
  extend es2 (extend es1 w) = extend (es1 ++ es2) w.
Proof. unfold extend. simpl. by rewrite app_assoc. Qed.

Section Reliable.
Variable env : environment.
Hypothesis env_reliable : never_raises env.

Lemma call_returns (e : kombu.event) (w : world) :
  call env e w = (Ok tt, extend [e] w).
Proof. unfold call. by rewrite env_reliable. Qed.

Ltac constructor_returns :=
  intros; rewrite bind_unfold; unfold allocate; cbn beta iota;
  rewrite bind_unfold, call_returns; reflexivity.

Lemma new_Connection_returns (transport : string) (hostname userid password : value)
    (w : world) :
  let c := {| kombu.conn_id := next_id w; kombu.transport := transport;
              kombu.hostname := hostname; kombu.userid := userid;
              kombu.conn_password := password |} in
  new_Connection env transport hostname userid password w
  = (Ok c, allocated (kombu.NewConnection c) w).
Proof. unfold new_Connection. constructor_returns. Qed.

Lemma clone_returns (conn : kombu.Connection) (w : world) :
  let c := {| kombu.conn_id := next_id w; kombu.transport := kombu.transport conn;
              kombu.hostname := kombu.hostname conn;
              kombu.userid := kombu.userid conn;
              kombu.conn_password := kombu.conn_password conn |} in
  clone env conn w = (Ok c, allocated (kombu.CloneConnection conn c) w).
Proof. unfold clone. constructor_returns. Qed.

Lemma new_Producer_returns (channel : kombu.Connection) (w : world) :
  let p := {| kombu.prod_id := next_id w; kombu.prod_channel := channel |} in
  new_Producer env channel w = (Ok p, allocated (kombu.NewProducer p) w).
Proof. unfold new_Producer. constructor_returns. Qed.

Lemma new_Consumer_returns (queues : list kombu.Queue)
    (callbacks : list kombu.method) (auto_declare : bool) (w : world) :
  let c := {| kombu.cons_id := next_id w; kombu.cons_queues := queues;
              kombu.cons_callbacks := callbacks;
              kombu.cons_auto_declare := auto_declare |} in
  new_Consumer env queues callbacks auto_declare w
  = (Ok c, allocated (kombu.NewConsumer c) w).
Proof. unfold new_Consumer. constructor_returns. Qed.

(** The inner loop of [get_consumers] binds the queue once per routing
    key, in order. *)
Lemma bind_loop (queue : kombu.Queue) (routing_keys : list string) (w : world) :
  for_each routing_keys (λ routing_key,
    self ← get_self;
    call env (kombu.QueueBindTo queue (exchange self) routing_key)) w
  = (Ok tt, extend (kombu.QueueBindTo queue (exchange (self w)) <$> routing_keys) w).
Proof.
  revert w. induction routing_keys as [|rk rks IH]; intros w.
  - simpl. by rewrite extend_nil.
  - simpl. rewrite bind_unfold, bind_unfold. simpl.
    rewrite call_returns, IH, extend_extend. done.
Qed.

Lemma declare_and_bind_returns (channel : kombu.Channel) (queue_name : string)
    (routing_keys : list string) (w : world) :
  BaseConsumer.declare_and_bind env channel queue_name routing_keys w
  = (Ok (durable_queue (exchange (self w)) channel queue_name),
     extend (declarations (exchange (self w)) channel [(queue_name, routing_keys)]) w).
Proof.
  unfold BaseConsumer.declare_and_bind.
  rewrite bind_unfold. simpl. rewrite bind_unfold, call_returns.
  rewrite bind_unfold, bind_loop, extend_extend. simpl.
  by rewrite app_nil_r.
Qed.

Lemma declare_queues_returns (channel : kombu.Channel)
    (items : list (string * list string)) (queues : list kombu.Queue) (w : world) :
  BaseConsumer.declare_queues env channel items queues w
  = (Ok (queues ++ (durable_queue (exchange (self w)) channel <$> items.*1)),
     extend (declarations (exchange (self w)) channel items) w).
Proof.
  revert queues w. induction items as [|[qn rks] items IH]; intros queues w.
  - simpl. by rewrite extend_nil, app_nil_r.
  - simpl. rewrite bind_unfold, declare_and_bind_returns, IH, extend_extend.
    simpl. by rewrite app_nil_r, <- app_assoc.
Qed.

(** What [get_consumers] returns and which calls it issues, for an instance
    with a configuration and an exchange. *)
Lemma get_consumers_returns (channel : kombu.Channel) (w : world)
    (cfg : MqConfig.t) (ex : kombu.Exchange) :
  mq_config (self w) = Some cfg →
  exchange (self w) = Some ex →
  let items := map_to_list (MqConfig.queues cfg) in
  let consumer :=
    {| kombu.cons_id := next_id w;
       kombu.cons_queues := durable_queue (Some ex) channel <$> items.*1;
       kombu.cons_callbacks := [kombu.self_callback];
       kombu.cons_auto_declare := false |} in
  BaseConsumer.get_consumers env (new_Consumer env) channel w
  = (Ok [consumer],
     {| self := self w; next_id := S (next_id w);
        calls := calls w ++ kombu.ExchangeDeclare ex channel
                   :: declarations (Some ex) channel items
                   ++ [kombu.NewConsumer consumer; kombu.Qos consumer 1 true] |}).
Proof.
  intros Hcfg Hex items consumer.
  unfold BaseConsumer.get_consumers.
  rewrite bind_unfold. unfold get_self. cbn beta iota. rewrite Hcfg, Hex.
  rewrite bind_unfold, call_returns. cbn beta iota.
  rewrite bind_unfold, declare_queues_returns. cbn beta iota.
  rewrite bind_unfold, new_Consumer_returns. cbn beta iota.
  rewrite bind_unfold, call_returns.
  unfold allocated, extend. simpl. rewrite Hex, <- !app_assoc. done.
Qed.

End Reliable.

Section Readings.
Variable ex : option kombu.Exchange.
Variable channel : kombu.Channel.

Abbreviation Q := (durable_queue ex channel).

Lemma declared_queues_app (es1 es2 : list kombu.event) :
  declared_queues (es1 ++ es2) = declared_queues es1 ++ declared_queues es2.
Proof. apply omap_app. Qed.

Lemma bindings_app (es1 es2 : list kombu.event) :
  bindings (es1 ++ es2) = bindings es1 ++ bindings es2.
Proof. apply omap_app. Qed.

Lemma consumers_built_app (es1 es2 : list kombu.event) :
  consumers_built (es1 ++ es2) = consumers_built es1 ++ consumers_built es2.
Proof. apply omap_app. Qed.

Lemma qos_settings_app (es1 es2 : list kombu.event) :
  qos_settings (es1 ++ es2) = qos_settings es1 ++ qos_settings es2.
Proof. apply omap_app. Qed.

Lemma bind_calls_readings (q : kombu.Queue) (routing_keys : list string) :
  let es := kombu.QueueBindTo q ex <$> routing_keys in
  declared_queues es = [] ∧ consumers_built es = [] ∧ qos_settings es = []
  ∧ bindings es = (λ rk, (q, ex, rk)) <$> routing_keys.
Proof.
  induction routing_keys as [|rk rks (IH1 & IH2 & IH3 & IH4)]; [done|].
  repeat split; simpl; try done. unfold bindings in *. simpl. by f_equal.
Qed.

Lemma declarations_cons (queue_name : string) (routing_keys : list string)
    (items : list (string * list string)) :
  declarations ex channel ((queue_name, routing_keys) :: items)
  = kombu.QueueDeclare (Q queue_name)
    :: (kombu.QueueBindTo (Q queue_name) ex <$> routing_keys)
    ++ declarations ex channel items.
Proof. reflexivity. Qed.

(** What a run of declarations declares, binds, builds and sets. *)
Lemma declarations_readings (items : list (string * list string)) :
  let es := declarations ex channel items in
  declared_queues es = Q <$> items.*1
  ∧ bindings es = item_bindings ex channel items
  ∧ consumers_built es = [] ∧ qos_settings es = [].
Proof.
  induction items as [|[qn rks] items (IH1 & IH2 & IH3 & IH4)]; [done|].
  cbn zeta in *. rewrite declarations_cons.
  destruct (bind_calls_readings (Q qn) rks) as (H1 & H2 & H3 & H4).
  repeat split.
  - change (declared_queues (?e :: ?l)) with (Q qn :: declared_queues l).
    rewrite declared_queues_app, H1, IH1. done.
  - change (bindings (?e :: ?l)) with (bindings l).
    rewrite bindings_app, H4, IH2. done.
  - change (consumers_built (?e :: ?l)) with (consumers_built l).
    rewrite consumers_built_app, H2, IH3. done.
  - change (qos_settings (?e :: ?l)) with (qos_settings l).
    rewrite qos_settings_app, H3, IH4. done.
Qed.

Lemma filter_none {A} (P : A → Prop) `{∀ x, Decision (P x)} (l : list A) :
  Forall (λ x, ¬ P x) l → filter P l = [].
Proof.
  induction 1 as [|x l Hx Hl IH]; [done|].
  by rewrite filter_cons_False.
Qed.

(** Among the queues built for distinct names, one carries a given name. *)
Lemma filter_named (names : list string) (queue_name : string) :
  NoDup names →
  queue_name ∈ names →
  filter (λ q, kombu.q_name q = queue_name) (Q <$> names) = [Q queue_name].
Proof.
  induction 1 as [|x l Hx Hl IH]; intros Hin; [by apply elem_of_nil in Hin|].
  rewrite fmap_cons, filter_cons. simpl.
  destruct (decide (x = queue_name)) as [->|Hne].
  - f_equal. apply filter_none. apply Forall_fmap, Forall_forall.
    intros y Hy. simpl. intros ->. done.
  - apply elem_of_cons in Hin as [?|Hin]; [congruence | by apply IH].
Qed.

Lemma filter_other_queue (queue_name other rk : string) (routing_keys : list string) :
  other ≠ queue_name →
  filter (λ b : kombu.Queue * option kombu.Exchange * string,
            kombu.q_name b.1.1 = queue_name ∧ b.2 = rk)
         ((λ rk', (Q other, ex, rk')) <$> routing_keys) = [].
Proof.
  intros Hne. apply filter_none, Forall_fmap, Forall_forall.
  intros y _. simpl. tauto.
Qed.

Lemma filter_routing_key (queue_name rk : string) (routing_keys : list string) :
  filter (λ b : kombu.Queue * option kombu.Exchange * string,
            kombu.q_name b.1.1 = queue_name ∧ b.2 = rk)
         ((λ rk', (Q queue_name, ex, rk')) <$> routing_keys)
  = (λ rk', (Q queue_name, ex, rk')) <$> filter (λ rk', rk' = rk) routing_keys.
Proof.
  induction routing_keys as [|x l IH]; [done|].
  rewrite fmap_cons, !filter_cons. simpl.
  destruct (decide (x = rk)) as [->|Hne].
  - rewrite decide_True by done. rewrite fmap_cons. by f_equal.
  - rewrite decide_False by tauto. done.
Qed.

Lemma filter_eq_NoDup (rk : string) (routing_keys : list string) :
  NoDup routing_keys →
  filter (λ rk', rk' = rk) routing_keys = if decide (rk ∈ routing_keys) then [rk] else [].
Proof.
  induction 1 as [|x l Hx Hl IH].
  - rewrite decide_False; [done | apply not_elem_of_nil].
  - rewrite filter_cons, IH. destruct (decide (x = rk)) as [->|Hne].
    + rewrite (decide_False (P := rk ∈ l)) by done.
      rewrite decide_True; [done | apply elem_of_cons; auto].
    + destruct (decide (rk ∈ l)) as [Hin|Hnin].
      * rewrite decide_True; [done | apply elem_of_cons; auto].
      * rewrite decide_False; [done|]. rewrite elem_of_cons. intros [?|?]; congruence.
Qed.

(** The bindings of one queue name and one routing key among the bindings
    of a list of items with distinct queue names. *)
Lemma filter_item_bindings (items : list (string * list string))
    (queue_name rk : string) :
  NoDup items.*1 →
  filter (λ b : kombu.Queue * option kombu.Exchange * string,
            kombu.q_name b.1.1 = queue_name ∧ b.2 = rk)
         (item_bindings ex channel items)
  = match list_to_map (M := gmap string (list string)) items !! queue_name with
    | Some routing_keys =>
        (λ rk', (Q queue_name, ex, rk')) <$> filter (λ rk', rk' = rk) routing_keys
    | None => []
    end.
Proof.
  induction items as [|[qn rks] items IH]; intros Hnd; [done|].
  apply NoDup_cons in Hnd as [Hqn Hnd].
  change (item_bindings ex channel ((qn, rks) :: items))
    with (((λ rk', (Q qn, ex, rk')) <$> rks) ++ item_bindings ex channel items).
  rewrite filter_app, IH by done. simpl.
  destruct (decide (qn = queue_name)) as [->|Hne].
  - rewrite lookup_insert_eq, filter_routing_key.
    rewrite (not_elem_of_list_to_map_1 _ queue_name) by done.
    by rewrite app_nil_r.
  - rewrite lookup_insert_ne, filter_other_queue by done. done.
Qed.

End Readings.

(** What the calls of a successful [get_consumers] declare, bind, build
    and set. *)
Lemma get_consumers_readings (ex : kombu.Exchange) (channel : kombu.Channel)
    (items : list (string * list string)) (consumer : kombu.Consumer) :
  let issued := kombu.ExchangeDeclare ex channel
                :: declarations (Some ex) channel items
                ++ [kombu.NewConsumer consumer; kombu.Qos consumer 1 true] in
  declared_queues issued = durable_queue (Some ex) channel <$> items.*1
  ∧ bindings issued = item_bindings (Some ex) channel items
  ∧ consumers_built issued = [consumer]
  ∧ qos_settings issued = [(consumer, 1, true)].
Proof.
  destruct (declarations_readings (Some ex) channel items) as (H1 & H2 & H3 & H4).
  cbn zeta in *. repeat split.
  - change (declared_queues (?e :: ?l)) with (declared_queues l).
    by rewrite declared_queues_app, H1, app_nil_r.
  - change (bindings (?e :: ?l)) with (bindings l).
    by rewrite bindings_app, H2, app_nil_r.
  - change (consumers_built (?e :: ?l)) with (consumers_built l).
    by rewrite consumers_built_app, H3.
  - change (qos_settings (?e :: ?l)) with (qos_settings l).
    by rewrite qos_settings_app, H4.
Qed.

Lemma reliable_never_raises : never_raises reliable.
Proof. intros h e. reflexivity. Qed.

(** C3: on a client whose calls return, for an instance with a valid queue
    configuration and its exchange, [get_consumers] declares each configured
    queue once, as a durable queue, and declares exactly one binding of that
    queue to the exchange for each routing key listed for it; it declares no
    binding for a pair that is not listed. *)
Theorem get_consumers_binds_each_pair_once (env : environment)
    (channel : kombu.Channel) (w : world) (cfg : MqConfig.t) (ex : kombu.Exchange) :
  never_raises env →
  mq_config (self w) = Some cfg →
  exchange (self w) = Some ex →
  valid_queues (MqConfig.queues cfg) →
  ∃ consumers w' issued,
    BaseConsumer.get_consumers env (new_Consumer env) channel w = (Ok consumers, w')
    ∧ calls w' = calls w ++ issued
    ∧ Forall (λ q, kombu.q_durable q = true) (declared_queues issued)
    ∧ (∀ queue_name routing_keys,
         MqConfig.queues cfg !! queue_name = Some routing_keys →
         filter (λ q, kombu.q_name q = queue_name) (declared_queues issued)
         = [durable_queue (Some ex) channel queue_name]
         ∧ ∀ rk, rk ∈ routing_keys →
             filter (λ b, kombu.q_name b.1.1 = queue_name ∧ b.2 = rk) (bindings issued)
             = [(durable_queue (Some ex) channel queue_name, Some ex, rk)])
    ∧ (∀ queue_name rk,
         (∀ routing_keys, MqConfig.queues cfg !! queue_name = Some routing_keys →
                          rk ∉ routing_keys) →
         filter (λ b, kombu.q_name b.1.1 = queue_name ∧ b.2 = rk) (bindings issued) = []).
Proof.
  intros Henv Hcfg Hex Hvalid.
  pose proof (get_consumers_returns env Henv channel w cfg ex Hcfg Hex) as Hrun.
  cbn zeta in Hrun.
  set (items := map_to_list (MqConfig.queues cfg)) in *.
  destruct (get_consumers_readings ex channel items
              {| kombu.cons_id := next_id w;
                 kombu.cons_queues := durable_queue (Some ex) channel <$> items.*1;
                 kombu.cons_callbacks := [kombu.self_callback];
                 kombu.cons_auto_declare := false |}) as (Hdecl & Hbind & _ & _).
  cbn zeta in *.
  assert (Hnd : NoDup items.*1) by apply NoDup_fst_map_to_list.
  assert (Hmap : list_to_map (M := gmap string (list string)) items = MqConfig.queues cfg)
    by apply list_to_map_to_list.
  eexists _, _, _. split; [exact Hrun|]. split; [reflexivity|].
  rewrite Hdecl, Hbind. split; [|split].
  - apply Forall_fmap, Forall_forall. done.
  - intros qn rks Hq. split.
    + apply filter_named; [done|].
      apply (list_elem_of_fmap_2' fst _ (qn, rks)); [|done].
      by apply elem_of_map_to_list.
    + intros rk Hrk. rewrite filter_item_bindings, Hmap, Hq by done.
      rewrite filter_eq_NoDup by (by eapply map_Forall_lookup_1 in Hvalid).
      by rewrite decide_True.
  - intros qn rk Hnot. rewrite filter_item_bindings, Hmap by done.
    destruct (MqConfig.queues cfg !! qn) as [rks|] eqn:Hq; [|done].
    rewrite filter_eq_NoDup by (by eapply map_Forall_lookup_1 in Hvalid).
    rewrite decide_False; [done | by apply Hnot].
Qed.

Lemma get_consumers_binds_each_pair_once_witness :
  never_raises reliable
  ∧ mq_config (self configured_world) = Some sample_config
  ∧ valid_queues (MqConfig.queues sample_config)
  ∧ ∃ consumers w' issued,
      BaseConsumer.get_consumers reliable (new_Consumer reliable) 7 configured_world
      = (Ok consumers, w')
      ∧ calls w' = calls configured_world ++ issued
      ∧ filter (λ b, kombu.q_name b.1.1 = "loader" ∧ b.2 = "warc_created")
               (bindings issued)
        = [(durable_queue (exchange (self configured_world)) 7 "loader",
            exchange (self configured_world), "warc_created")].
Proof.
  assert (Hvalid : valid_queues (MqConfig.queues sample_config)).
  { apply (bool_decide_unpack _). vm_compute. exact I. }
  split; [exact reliable_never_raises|]. split; [reflexivity|]. split; [exact Hvalid|].
  destruct (get_consumers_binds_each_pair_once reliable 7 configured_world sample_config
              {| kombu.ex_name := VStr EXCHANGE; kombu.ex_type := "topic";
                 kombu.ex_durable := true |}
              reliable_never_raises eq_refl eq_refl Hvalid)
    as (consumers & w' & issued & Hrun & Hcalls & _ & Hlisted & _).
  exists consumers, w', issued. split; [exact Hrun|]. split; [exact Hcalls|].
  apply (Hlisted "loader" ["warc_created"]); [reflexivity|].
  apply list_elem_of_singleton. reflexivity.
Defined.

(** C4: on a client whose calls return, [get_consumers] returns exactly one
    consumer; it is the only consumer built, it spans the queues just
    declared (one per configured queue), has auto-declare disabled and
    [_callback] as its callback, and the one prefetch setting made gives it a
    prefetch count of 1, applied globally, after all declarations. *)
Theorem get_consumers_registers_one_consumer (env : environment)
    (channel : kombu.Channel) (w : world) (cfg : MqConfig.t) (ex : kombu.Exchange) :
  never_raises env →
  mq_config (self w) = Some cfg →
  exchange (self w) = Some ex →
  ∃ consumer w' issued,
    BaseConsumer.get_consumers env (new_Consumer env) channel w = (Ok [consumer], w')
    ∧ calls w' = calls w ++ issued
    ∧ issued = kombu.ExchangeDeclare ex channel
               :: declarations (Some ex) channel (map_to_list (MqConfig.queues cfg))
               ++ [kombu.NewConsumer consumer; kombu.Qos consumer 1 true]
    ∧ consumers_built issued = [consumer]
    ∧ kombu.cons_queues consumer = declared_queues issued
    ∧ kombu.q_name <$> kombu.cons_queues consumer = (map_to_list (MqConfig.queues cfg)).*1
    ∧ kombu.cons_callbacks consumer = [kombu.self_callback]
    ∧ kombu.cons_auto_declare consumer = false
    ∧ qos_settings issued = [(consumer, 1, true)].
Proof.
  intros Henv Hcfg Hex.
  pose proof (get_consumers_returns env Henv channel w cfg ex Hcfg Hex) as Hrun.
  cbn zeta in Hrun.
  set (items := map_to_list (MqConfig.queues cfg)) in *.
  set (consumer := {| kombu.cons_id := next_id w;
                      kombu.cons_queues := durable_queue (Some ex) channel <$> items.*1;
                      kombu.cons_callbacks := [kombu.self_callback];
                      kombu.cons_auto_declare := false |}) in *.
  destruct (get_consumers_readings ex channel items consumer) as (Hdecl & _ & Hbuilt & Hqos).
  cbn zeta in *.
  exists consumer. eexists _, _. split; [exact Hrun|].
  split; [reflexivity|]. split; [reflexivity|].
  rewrite Hdecl, Hbuilt, Hqos. repeat split.
  simpl. rewrite <- list_fmap_compose. clear.
  induction (items.*1) as [|x l IH]; [done|]. simpl. by f_equal.
Qed.

Lemma get_consumers_registers_one_consumer_witness :
  never_raises reliable
  ∧ mq_config (self configured_world) = Some sample_config
  ∧ ∃ consumer w' issued,
      BaseConsumer.get_consumers reliable (new_Consumer reliable) 7 configured_world
      = (Ok [consumer], w')
      ∧ calls w' = calls configured_world ++ issued
      ∧ kombu.cons_auto_declare consumer = false
      ∧ qos_settings issued = [(consumer, 1, true)].
Proof.
  split; [exact reliable_never_raises|]. split; [reflexivity|].
  destruct (get_consumers_registers_one_consumer reliable 7 configured_world
              sample_config
              {| kombu.ex_name := VStr EXCHANGE; kombu.ex_type := "topic";
                 kombu.ex_durable := true |}
              reliable_never_raises eq_refl eq_refl)
    as (consumer & w' & issued & Hrun & Hcalls & _ & _ & _ & _ & _ & Hauto & Hqos).
  exists consumer, w', issued. auto.
Defined.

(** C2: for a delivered message whose delivery metadata holds a routing
    key, [_callback] stores the routing key and the raw message on the
    instance, then issues the acknowledgement, and only then runs the hook:
    the hook starts in a world where both are stored and the acknowledgement
    is the last call issued, and [_callback] ends as the hook ends, failure
    included.  When the acknowledgement itself raises, the hook is not run. *)
Theorem callback_acks_before_hook (env : environment) (on_message : M unit)
    (msg : string) (message_obj : kombu.Message) (rk : string) (w : world) :
  kombu.delivery_info message_obj !! "routing_key" = Some rk →
  ∃ w1,
    routing_key (self w1) = Some rk
    ∧ message (self w1) = Some msg
    ∧ calls w1 = calls w ++ [kombu.Ack message_obj]
    ∧ BaseConsumer._callback env on_message msg message_obj w
      = match env (calls w) (kombu.Ack message_obj) with
        | None => on_message w1
        | Some x => (Raise x, w1)
        end.
Proof.
  intros Hrk. unfold BaseConsumer._callback. rewrite Hrk.
  exists {| self := {| mq_config := mq_config (self w);
                       connection := connection (self w);
                       exchange := exchange (self w);
                       message := Some msg;
                       routing_key := Some rk;
                       _producer_connection := _producer_connection (self w) |};
            next_id := next_id w;
            calls := calls w ++ [kombu.Ack message_obj] |}.
  repeat split.
  unfold mbind, M_bind, set_routing_key, set_message, modify_self, call, record.
  simpl. destruct (env (calls w) (kombu.Ack message_obj)); reflexivity.
Qed.

Lemma callback_acks_before_hook_witness :
  kombu.delivery_info sample_message !! "routing_key"
  = Some "harvest.start.twitter.search"
  ∧ ∃ w1,
      routing_key (self w1) = Some "harvest.start.twitter.search"
      ∧ message (self w1) = Some "body"
      ∧ calls w1 = calls configured_world ++ [kombu.Ack sample_message]
      ∧ BaseConsumer._callback reliable failing_hook "body" sample_message
          configured_world
        = (Raise (ClientError "handler failed"), w1).
Proof.
  split; [reflexivity|].
  exact (callback_acks_before_hook reliable failing_hook "body" sample_message
           "harvest.start.twitter.search" configured_world eq_refl).
Defined.

(** [on_consume_end] with a cached publish connection whose close returns. *)
Lemma on_consume_end_closes_once_aux (env : environment)
    (conn : option kombu.Connection) (channel : kombu.Channel) (w : world)
    (pc : kombu.Connection) :
  _producer_connection (self w) = Some pc →
  env (calls w) (kombu.CloseConnection pc) = None →
  ConsumerProducerMixin.on_consume_end env conn channel w
  = (Ok tt, {| self := with_producer_connection None (self w);
               next_id := next_id w;
               calls := calls w ++ [kombu.CloseConnection pc] |})
  ∧ _producer_connection (with_producer_connection None (self w)) = None.
Proof.
  intros Hpc Hclose. split; [|done].
  unfold ConsumerProducerMixin.on_consume_end.
  rewrite bind_unfold. unfold get_self. cbn beta iota. rewrite Hpc.
  rewrite bind_unfold. unfold call. rewrite Hclose. done.
Qed.

(** [on_consume_end] without a cached publish connection does nothing. *)
Lemma on_consume_end_idle (env : environment)
    (conn : option kombu.Connection) (channel : kombu.Channel) (w : world) :
  _producer_connection (self w) = None →
  ConsumerProducerMixin.on_consume_end env conn channel w = (Ok tt, w).
Proof.
  intros Hpc. unfold ConsumerProducerMixin.on_consume_end.
  rewrite bind_unfold. unfold get_self. cbn beta iota. by rewrite Hpc.
Qed.

(** C5: when the call that closes the connection returns, [on_consume_end]
    closes the cached publish connection, if there is one, once and clears
    the reference; run again, or run when no publish connection was created,
    it issues no call and changes nothing. *)
Theorem on_consume_end_closes_once (env : environment)
    (conn : option kombu.Connection) (channel : kombu.Channel) (w : world) :
  (∀ pc, _producer_connection (self w) = Some pc →
         env (calls w) (kombu.CloseConnection pc) = None) →
  ∃ w1,
    ConsumerProducerMixin.on_consume_end env conn channel w = (Ok tt, w1)
    ∧ calls w1 = calls w ++ match _producer_connection (self w) with
                            | Some pc => [kombu.CloseConnection pc]
                            | None => []
                            end
    ∧ _producer_connection (self w1) = None
    ∧ (_producer_connection (self w) = None → w1 = w)
    ∧ ConsumerProducerMixin.on_consume_end env conn channel w1 = (Ok tt, w1).
Proof.
  intros Hclose. unfold ConsumerProducerMixin.on_consume_end.
  rewrite bind_unfold. unfold get_self. cbn beta iota.
  destruct (_producer_connection (self w)) as [pc|] eqn:Hpc.
  - rewrite bind_unfold. unfold call. rewrite (Hclose pc eq_refl). cbn beta iota.
    eexists. split; [reflexivity|]. simpl. repeat split. done.
  - exists w. rewrite bind_unfold. unfold get_self. cbn beta iota. rewrite Hpc.
    rewrite app_nil_r. done.
Qed.

Lemma on_consume_end_closes_once_witness :
  ∃ pc w1,
    _producer_connection (self publishing_world) = Some pc
    ∧ reliable (calls publishing_world) (kombu.CloseConnection pc) = None
    ∧ ConsumerProducerMixin.on_consume_end reliable None 7 publishing_world = (Ok tt, w1)
    ∧ calls w1 = calls publishing_world ++ [kombu.CloseConnection pc]
    ∧ _producer_connection (self w1) = None
    ∧ ConsumerProducerMixin.on_consume_end reliable None 7 w1 = (Ok tt, w1).
Proof.
  destruct (on_consume_end_closes_once reliable None 7 publishing_world
              (λ pc _, eq_refl))
    as (w1 & Hrun & Hcalls & Hcleared & _ & Hagain).
  eexists _, w1. split; [reflexivity|]. split; [reflexivity|].
  split; [exact Hrun|]. split; [exact Hcalls|].
  split; [exact Hcleared | exact Hagain].
Defined.

(** X12: with host, user name and password present, [__init__] on a client
    whose calls return builds the connection descriptor from exactly the
    host and credentials of the configuration, over the librabbitmq
    transport, and the durable topic exchange named in the configuration,
    and leaves no message or routing key on the instance. *)
Lemma init_complete_builds (env : environment) (cfg : MqConfig.t) (w : world) :
  never_raises env →
  truthy (MqConfig.host cfg) = true →
  truthy (MqConfig.username cfg) = true →
  truthy (MqConfig.password cfg) = true →
  ∃ w',
    BaseConsumer.__init__ env (Some cfg) w = (Ok tt, w')
    ∧ mq_config (self w') = Some cfg
    ∧ connection (self w')
      = Some {| kombu.conn_id := next_id w; kombu.transport := "librabbitmq";
                kombu.hostname := MqConfig.host cfg;
                kombu.userid := MqConfig.username cfg;
                kombu.conn_password := MqConfig.password cfg |}
    ∧ exchange (self w')
      = Some {| kombu.ex_name := MqConfig.exchange cfg; kombu.ex_type := "topic";
                kombu.ex_durable := true |}
    ∧ message (self w') = None
    ∧ routing_key (self w') = None.
Proof.
  intros Henv Hh Hu Hp. unfold BaseConsumer.__init__.
  rewrite Hh, Hu, Hp. cbn [andb].
  unfold mbind, M_bind, set_mq_config, set_connection, set_exchange,
    set_message, set_routing_key, modify_self.
  cbn beta iota. rewrite new_Connection_returns by done. cbn beta iota zeta.
  eexists. split; [reflexivity|]. done.
Qed.

(** C6: constructing a [BaseConsumer] from no configuration, or from one
    whose host, user name or password is empty or absent, returns and leaves
    the instance inert: [connection] and [exchange] are [None], and no object
    was allocated and no call issued to build them. *)
Theorem init_incomplete_is_inert (env : environment)
    (mq_config : option MqConfig.t) (w : world) :
  mq_config = None ∨ (∃ cfg, mq_config = Some cfg ∧ incomplete cfg) →
  ∃ w',
    BaseConsumer.__init__ env mq_config w = (Ok tt, w')
    ∧ connection (self w') = None
    ∧ exchange (self w') = None
    ∧ next_id w' = next_id w
    ∧ calls w' = calls w.
Proof.
  intros Hcfg. unfold BaseConsumer.__init__.
  assert (Hinert :
    match mq_config with
    | Some cfg => truthy (MqConfig.host cfg) && truthy (MqConfig.username cfg)
                  && truthy (MqConfig.password cfg) = false
    | None => True
    end).
  { destruct Hcfg as [->|(cfg & -> & Hinc)]; [done|].
    destruct Hinc as [Hh|[Hu|Hp]].
    - apply ResultProperties.truthy_false in Hh. by rewrite Hh.
    - apply ResultProperties.truthy_false in Hu. rewrite Hu.
      by rewrite andb_false_r.
    - apply ResultProperties.truthy_false in Hp. rewrite Hp.
      by rewrite andb_false_r. }
  destruct mq_config as [cfg|].
  - rewrite Hinert. eexists. split; [reflexivity|]. done.
  - eexists. split; [reflexivity|]. done.
Qed.

Lemma init_incomplete_is_inert_witness :
  incomplete hostless_config
  ∧ ∃ w',
      BaseConsumer.__init__ reliable (Some hostless_config) fresh_world = (Ok tt, w')
      ∧ connection (self w') = None
      ∧ exchange (self w') = None
      ∧ next_id w' = next_id fresh_world
      ∧ calls w' = calls fresh_world.
Proof.
  assert (Hinc : incomplete hostless_config) by (left; left; reflexivity).
  split; [exact Hinc|].
  apply (init_incomplete_is_inert reliable (Some hostless_config) fresh_world).
  right. exists hostless_config. split; [reflexivity | exact Hinc].
Defined.

(** C7: on an instance without a configuration, [get_consumers] raises
    [AssertionError] at once: the world is unchanged, so no declaration and
    no other call was attempted. *)
Theorem get_consumers_asserts_config (env : environment)
    (Consumer : list kombu.Queue → list kombu.method → bool → M kombu.Consumer)
    (channel : kombu.Channel) (w : world) :
  mq_config (self w) = None →
  BaseConsumer.get_consumers env Consumer channel w = (Raise AssertionError, w).
Proof.
  intros Hcfg. unfold BaseConsumer.get_consumers.
  rewrite bind_unfold. unfold get_self. cbn beta iota. by rewrite Hcfg.
Qed.

Lemma get_consumers_asserts_config_witness :
  mq_config (self fresh_world) = None
  ∧ BaseConsumer.get_consumers reliable (new_Consumer reliable) 7 fresh_world
    = (Raise AssertionError, fresh_world).
Proof.
  split; [reflexivity|].
  apply (get_consumers_asserts_config reliable (new_Consumer reliable) 7 fresh_world).
  reflexivity.
Defined.

Section Publishing.
Variable env : environment.
Variable retries : option nat.

(** With a publish connection cached, the property returns it and does
    nothing else, whatever the client does. *)
Lemma producer_connection_cached (w : world) (pc : kombu.Connection) :
  _producer_connection (self w) = Some pc →
  ConsumerProducerMixin.producer_connection env retries w = (Ok pc, w).
Proof.
  intros Hpc. unfold ConsumerProducerMixin.producer_connection.
  rewrite bind_unfold. unfold get_self. cbn beta iota. by rewrite Hpc.
Qed.

Hypothesis env_reliable : never_raises env.

(** Without one, it clones the consume connection, establishes the clone
    and caches it. *)
Lemma producer_connection_first (w : world) (c : kombu.Connection) :
  connection (self w) = Some c →
  _producer_connection (self w) = None →
  ConsumerProducerMixin.producer_connection env retries w
  = (Ok (clone_of c w),
     {| self := with_producer_connection (Some (clone_of c w)) (self w);
        next_id := S (next_id w);
        calls := calls w ++ [kombu.CloneConnection c (clone_of c w);
                             kombu.EnsureConnection (clone_of c w)
                               kombu.self_on_connection_error retries] |}).
Proof.
  intros Hc Hpc. unfold ConsumerProducerMixin.producer_connection.
  rewrite bind_unfold. unfold get_self. cbn beta iota. rewrite Hpc, Hc.
  rewrite bind_unfold, clone_returns by done. cbn beta iota zeta.
  rewrite bind_unfold, call_returns by done. cbn beta iota.
  rewrite bind_unfold. unfold set_producer_connection, modify_self. cbn beta iota.
  unfold allocated, extend, clone_of, with_producer_connection. simpl.
  by rewrite <- app_assoc.
Qed.

Lemma producer_cached (w : world) (pc : kombu.Connection) :
  _producer_connection (self w) = Some pc →
  let p := {| kombu.prod_id := next_id w; kombu.prod_channel := pc |} in
  ConsumerProducerMixin.producer env retries w
  = (Ok p, allocated (kombu.NewProducer p) w).
Proof.
  intros Hpc p. unfold ConsumerProducerMixin.producer.
  rewrite bind_unfold, (producer_connection_cached w pc Hpc). cbn beta iota.
  by rewrite new_Producer_returns.
Qed.

Lemma producer_first (w : world) (c : kombu.Connection) :
  connection (self w) = Some c →
  _producer_connection (self w) = None →
  let pc := clone_of c w in
  let wc := {| self := with_producer_connection (Some pc) (self w);
               next_id := S (next_id w);
               calls := calls w ++ [kombu.CloneConnection c pc;
                                    kombu.EnsureConnection pc
                                      kombu.self_on_connection_error retries] |} in
  let p := {| kombu.prod_id := S (next_id w); kombu.prod_channel := pc |} in
  ConsumerProducerMixin.producer env retries w
  = (Ok p, allocated (kombu.NewProducer p) wc).
Proof.
  intros Hc Hpc pc wc p. unfold ConsumerProducerMixin.producer.
  rewrite bind_unfold, (producer_connection_first w c Hc Hpc). cbn beta iota.
  by rewrite new_Producer_returns.
Qed.

End Publishing.

(** C10: on a client whose calls return, for an instance with a consume
    connection and no publish connection yet: the first access of [producer]
    clones the consume connection, establishes the clone and caches it; every
    access builds a new [Producer] (two accesses give producers of different
    identity) on that same cached connection; while the connection is cached,
    [producer_connection] returns it without issuing a call; after
    [on_consume_end] the reference is cleared and the next access clones
    anew. *)
Theorem producer_is_new_connection_is_cached (env : environment)
    (retries : option nat) (w : world) (c : kombu.Connection) :
  never_raises env →
  connection (self w) = Some c →
  _producer_connection (self w) = None →
  ∃ pc p1 p2 w1 w2,
    ConsumerProducerMixin.producer env retries w = (Ok p1, w1)
    ∧ ConsumerProducerMixin.producer env retries w1 = (Ok p2, w2)
    ∧ kombu.prod_id p1 ≠ kombu.prod_id p2
    ∧ kombu.prod_channel p1 = pc
    ∧ kombu.prod_channel p2 = pc
    ∧ calls w1 = calls w ++ [kombu.CloneConnection c pc;
                             kombu.EnsureConnection pc
                               kombu.self_on_connection_error retries;
                             kombu.NewProducer p1]
    ∧ calls w2 = calls w1 ++ [kombu.NewProducer p2]
    ∧ _producer_connection (self w1) = Some pc
    ∧ _producer_connection (self w2) = Some pc
    ∧ (∀ w', _producer_connection (self w') = Some pc →
         ConsumerProducerMixin.producer_connection env retries w' = (Ok pc, w')
         ∧ ∃ p, ConsumerProducerMixin.producer env retries w'
                = (Ok p, allocated (kombu.NewProducer p) w')
                ∧ kombu.prod_id p = next_id w'
                ∧ kombu.prod_channel p = pc)
    ∧ (∀ conn channel, ∃ w3 pc' w4,
         ConsumerProducerMixin.on_consume_end env conn channel w2 = (Ok tt, w3)
         ∧ _producer_connection (self w3) = None
         ∧ ConsumerProducerMixin.producer_connection env retries w3 = (Ok pc', w4)
         ∧ kombu.conn_id pc' ≠ kombu.conn_id pc
         ∧ calls w4 = calls w3 ++ [kombu.CloneConnection c pc';
                                   kombu.EnsureConnection pc'
                                     kombu.self_on_connection_error retries]).
Proof.
  intros Henv Hc Hpc.
  set (pc := clone_of c w).
  set (wc := {| self := with_producer_connection (Some pc) (self w);
                next_id := S (next_id w);
                calls := calls w ++ [kombu.CloneConnection c pc;
                                     kombu.EnsureConnection pc
                                       kombu.self_on_connection_error retries] |}).
  set (p1 := {| kombu.prod_id := next_id wc; kombu.prod_channel := pc |}).
  set (w1 := allocated (kombu.NewProducer p1) wc).
  set (p2 := {| kombu.prod_id := next_id w1; kombu.prod_channel := pc |}).
  set (w2 := allocated (kombu.NewProducer p2) w1).
  assert (Hfirst : ConsumerProducerMixin.producer env retries w = (Ok p1, w1)).
  { by apply (producer_first env retries Henv w c). }
  assert (Hsecond : ConsumerProducerMixin.producer env retries w1 = (Ok p2, w2)).
  { by apply (producer_cached env retries Henv w1 pc). }
  exists pc, p1, p2, w1, w2.
  split; [exact Hfirst|]. split; [exact Hsecond|].
  split; [simpl; lia|]. split; [done|]. split; [done|].
  split; [simpl; by rewrite <- app_assoc|]. split; [done|].
  split; [done|]. split; [done|]. split.
  - intros w' Hw'. split; [by apply producer_connection_cached|].
    eexists. split; [by apply (producer_cached env retries Henv w' pc)|]. done.
  - intros conn channel.
    destruct (on_consume_end_closes_once_aux env conn channel w2 pc)
      as (Hend & Hcleared); [done | apply Henv |].
    eexists _, _, _. split; [exact Hend|]. split; [exact Hcleared|].
    split; [by apply (producer_connection_first env retries Henv _ c)|].
    split; [simpl; lia | done].
Qed.

Lemma closed_connections_app (es1 es2 : list kombu.event) :
  closed_connections (es1 ++ es2) = closed_connections es1 ++ closed_connections es2.
Proof. apply omap_app. Qed.

(** Publishing with a cached connection keeps it cached and closes
    nothing. *)
Lemma publish_times_cached (env : environment) (retries : option nat) (n : nat)
    (w : world) (pc : kombu.Connection) :
  never_raises env →
  _producer_connection (self w) = Some pc →
  ∃ w', publish_times env retries n w = (Ok tt, w')
        ∧ self w' = self w
        ∧ closed_connections (calls w') = closed_connections (calls w).
Proof.
  intros Henv. revert w. induction n as [|n IH]; intros w Hpc.
  - exists w. done.
  - simpl. rewrite bind_unfold, (producer_cached env retries Henv w pc Hpc).
    cbn beta iota.
    destruct (IH (allocated (kombu.NewProducer
                    {| kombu.prod_id := next_id w; kombu.prod_channel := pc |}) w))
      as (w' & Hrun & Hself & Hclosed); [done|].
    exists w'. split; [exact Hrun|]. split; [by rewrite Hself|].
    rewrite Hclosed. simpl. by rewrite closed_connections_app, app_nil_r.
Qed.

(** X13: on a client whose calls return, a session in which the handler
    publishes [n] times and the consume loop then ends closes exactly one
    connection, the clone made by the first publish, if [n] is positive, and
    closes nothing if [n] is zero; either way no publish connection stays
    cached. *)
Lemma session_closes_once (env : environment) (retries : option nat) (n : nat)
    (conn : option kombu.Connection) (channel : kombu.Channel)
    (w : world) (c : kombu.Connection) :
  never_raises env →
  connection (self w) = Some c →
  _producer_connection (self w) = None →
  ∃ w', session env retries n conn channel w = (Ok tt, w')
        ∧ _producer_connection (self w') = None
        ∧ closed_connections (calls w')
          = closed_connections (calls w)
            ++ match n with 0 => [] | S _ => [clone_of c w] end.
Proof.
  intros Henv Hc Hpc. unfold session. destruct n as [|n].
  - rewrite bind_unfold. simpl.
    exists w. split; [by apply on_consume_end_idle|]. split; [done|].
    by rewrite app_nil_r.
  - simpl. rewrite bind_unfold, bind_unfold.
    rewrite (producer_first env retries Henv w c Hc Hpc). cbn beta iota zeta.
    match goal with
    | |- context [publish_times env retries n ?w1] =>
        destruct (publish_times_cached env retries n w1 (clone_of c w) Henv eq_refl)
          as (w' & Hrun & Hself & Hclosed)
    end.
    rewrite Hrun. cbn beta iota.
    destruct (on_consume_end_closes_once_aux env conn channel w' (clone_of c w))
      as (Hend & Hcleared); [by rewrite Hself | apply Henv |].
    eexists. split; [exact Hend|]. split; [exact Hcleared|].
    simpl. rewrite closed_connections_app, Hclosed. simpl.
    rewrite !closed_connections_app. simpl. by rewrite !app_nil_r.
Qed.

Lemma producer_is_new_connection_is_cached_witness :
  never_raises reliable
  ∧ _producer_connection (self configured_world) = None
  ∧ ∃ c pc p1 p2 w1 w2,
      connection (self configured_world) = Some c
      ∧ ConsumerProducerMixin.producer reliable None configured_world = (Ok p1, w1)
      ∧ ConsumerProducerMixin.producer reliable None w1 = (Ok p2, w2)
      ∧ kombu.prod_id p1 ≠ kombu.prod_id p2
      ∧ kombu.prod_channel p1 = pc
      ∧ kombu.prod_channel p2 = pc
      ∧ _producer_connection (self w2) = Some pc.
Proof.
  split; [exact reliable_never_raises|]. split; [reflexivity|].
  destruct (producer_is_new_connection_is_cached reliable None configured_world
              {| kombu.conn_id := 0; kombu.transport := "librabbitmq";
                 kombu.hostname := VStr "mq"; kombu.userid := VStr "sfm_user";
                 kombu.conn_password := VStr "secret" |}
              reliable_never_raises eq_refl eq_refl)
    as (pc & p1 & p2 & w1 & w2 & H1 & H2 & Hid & Hp1 & Hp2 & _ & _ & _ & Hw2 & _).
  eexists _, pc, p1, p2, w1, w2.
  split; [reflexivity|]. split; [exact H1|]. split; [exact H2|].
  split; [exact Hid|]. split; [exact Hp1|]. split; [exact Hp2 | exact Hw2].
Defined.

End ConsumerProperties.

(** * Further properties of result.py *)

Module ResultCoverage.
Import BaseResult.

(** X1: the export of a message holds its code under ["code"] and its text
    under ["message"] and nothing else; two messages with the same export
    are the same message, and a message built by [Msg.__init__] is built
    again from the two entries of its export. *)
Theorem to_map_exports_code_and_message (m : Msg.t) :
  Msg.to_map m !! "code" = Some (Msg.code m)
  ∧ Msg.to_map m !! "message" = Some (Msg.message m)
  ∧ dom (Msg.to_map m) = {[ "code"; "message" ]}
  ∧ (∀ m', Msg.to_map m' = Msg.to_map m → m' = m)
  ∧ (∀ code text, Msg.__init__ code text = Ok m →
       ∃ c t, Msg.to_map m !! "code" = Some c
              ∧ Msg.to_map m !! "message" = Some t
              ∧ Msg.__init__ c t = Ok m).
Proof.
  assert (Hcode : ∀ x, Msg.to_map x !! "code" = Some (Msg.code x)).
  { intros x. unfold Msg.to_map. by rewrite lookup_insert_eq. }
  assert (Htext : ∀ x, Msg.to_map x !! "message" = Some (Msg.message x)).
  { intros x. unfold Msg.to_map.
    rewrite lookup_insert_ne by done. by rewrite lookup_singleton_eq. }
  split; [apply Hcode|]. split; [apply Htext|]. split; [|split].
  - unfold Msg.to_map. rewrite dom_insert_L, dom_singleton_L. done.
  - intros m' Heq.
    pose proof (Hcode m') as Hc. pose proof (Htext m') as Ht.
    rewrite Heq, Hcode in Hc. rewrite Heq, Htext in Ht.
    destruct m, m'. simpl in *. congruence.
  - intros code text Hinit. exists (Msg.code m), (Msg.message m).
    split; [apply Hcode|]. split; [apply Htext|].
    unfold Msg.__init__ in *.
    destruct (truthy code) eqn:Hc; [|done].
    destruct (truthy text) eqn:Ht; [|done].
    injection Hinit as <-. simpl. by rewrite Hc, Ht.
Qed.

Lemma entries_snoc (messages : list Msg.t) (msg : Msg.t) :
  entries (messages ++ [msg]) = entries messages ++ [str_entry (S (length messages)) msg].
Proof.
  unfold entries. rewrite imap_app. simpl. do 4 f_equal. lia.
Qed.

(** X2: appending a message to a list appends exactly one entry to its
    block, numbered one more than the length of the list; the first message
    of a list also brings the heading of the block. *)
Theorem str_messages_snoc (messages : list Msg.t) (msg : Msg.t) (name : string) :
  _str_messages (messages ++ [msg]) name
  = match messages with
    | [] => " " +:+ name +:+ " messages are:"
    | _ => _str_messages messages name
    end +:+ str_entry (S (length messages)) msg.
Proof.
  rewrite !ResultProperties._str_messages_block. unfold block.
  rewrite entries_snoc, ResultProperties.concat_strings_app.
  destruct messages as [|m l].
  - simpl. rewrite !ResultProperties.append_assoc.
    rewrite ResultProperties.append_empty_r. reflexivity.
  - rewrite <- app_comm_cons, !ResultProperties.append_assoc.
    rewrite ResultProperties.concat_strings_cons, ResultProperties.append_empty_r.
    reflexivity.
Qed.

(** X3: a result whose three message lists are empty renders as the status
    line, the timestamps that are set and the trailer, with no message
    block and no heading. *)
Theorem str_without_messages `{Specialization} (r : t) :
  infos r = [] → warnings r = [] → errors r = [] →
  __str__ r
  = _result_name r +:+ " response is " +:+ format_bool (success r) +:+ "."
    +:+ timestamp_part " Started: " (started r)
    +:+ timestamp_part " Ended: " (ended r)
    +:+ _addl_str r.
Proof.
  intros Hi Hw He. rewrite ResultProperties.str_is_summary.
  unfold summary, status_line. rewrite Hi, Hw, He. simpl.
  by rewrite !ResultProperties.append_assoc.
Qed.

Lemma str_without_messages_witness :
  infos timed_result = [] ∧ warnings timed_result = [] ∧ errors timed_result = []
  ∧ @__str__ base timed_result = " response is False. Started: 2016-01-01 12:00:00".
Proof.
  split; [reflexivity|]. split; [reflexivity|]. split; [reflexivity|].
  apply (@str_without_messages base timed_result); reflexivity.
Defined.

End ResultCoverage.

(** * Further properties of consumer.py *)

Module ConsumerCoverage.
Import ConsumerProperties.

Section AnyClient.
Variable env : environment.









End AnyClient.



Lemma filter_named_absent (ex : option kombu.Exchange) (channel : kombu.Channel)
    (names : list string) (queue_name : string) :
  queue_name ∉ names →
  filter (λ q, kombu.q_name q = queue_name) (durable_queue ex channel <$> names) = [].
Proof.
  intros Hnot. apply filter_none, Forall_fmap, Forall_forall.
  intros y Hy. simpl. intros ->. done.
Qed.

Lemma fmap_filter_replicate {A B} `{EqDecision A} (f : A → B) (x : A) (l : list A) :
  f <$> filter (λ y, y = x) l = replicate (length (filter (λ y, y = x) l)) (f x).
Proof.
  induction l as [|y l IH]; [done|].
  rewrite filter_cons. destruct (decide (y = x)) as [->|Hne]; [|done].
  rewrite fmap_cons. simpl. f_equal. exact IH.
Qed.

(** X5: on a client whose calls return, whatever the routing-key lists hold
    (no entry, repeated entries): every configured queue is declared exactly
    once, queues that are not configured are not declared, and a queue is
    bound under a routing key as many times as the key occurs in its list. *)
Theorem get_consumers_binds_per_listing (env : environment)
    (channel : kombu.Channel) (w : world) (cfg : MqConfig.t) (ex : kombu.Exchange) :
  never_raises env →
  mq_config (self w) = Some cfg →
  exchange (self w) = Some ex →
  ∃ consumers w' issued,
    BaseConsumer.get_consumers env (new_Consumer env) channel w = (Ok consumers, w')
    ∧ calls w' = calls w ++ issued
    ∧ length (declared_queues issued) = size (MqConfig.queues cfg)
    ∧ (∀ queue_name,
         filter (λ q, kombu.q_name q = queue_name) (declared_queues issued)
         = match MqConfig.queues cfg !! queue_name with
           | Some _ => [durable_queue (Some ex) channel queue_name]
           | None => []
           end)
    ∧ (∀ queue_name rk,
         filter (λ b, kombu.q_name b.1.1 = queue_name ∧ b.2 = rk) (bindings issued)
         = match MqConfig.queues cfg !! queue_name with
           | Some routing_keys =>
               replicate (length (filter (λ rk', rk' = rk) routing_keys))
                 (durable_queue (Some ex) channel queue_name, Some ex, rk)
           | None => []
           end).
Proof.
  intros Henv Hcfg Hex.
  pose proof (get_consumers_returns env Henv channel w cfg ex Hcfg Hex) as Hrun.
  cbn zeta in Hrun.
  set (items := map_to_list (MqConfig.queues cfg)) in *.
  destruct (get_consumers_readings ex channel items
              (startup_consumer ex channel cfg w)) as (Hdecl & Hbind & _ & _).
  cbn zeta in *.
  assert (Hnd : NoDup items.*1) by apply NoDup_fst_map_to_list.
  assert (Hmap : list_to_map (M := gmap string (list string)) items = MqConfig.queues cfg)
    by apply list_to_map_to_list.
  unfold startup_consumer in Hdecl, Hbind. fold items in Hdecl, Hbind.
  eexists _, _, _. split; [exact Hrun|]. split; [reflexivity|].
  rewrite Hdecl, Hbind.
  split; [|split].
  - rewrite !length_fmap. apply length_map_to_list.
  - intros qn. destruct (MqConfig.queues cfg !! qn) as [rks|] eqn:Hq.
    + apply filter_named; [done|].
      apply (list_elem_of_fmap_2' fst _ (qn, rks)); [|done].
      by apply elem_of_map_to_list.
    + apply filter_named_absent. apply not_elem_of_list_to_map. by rewrite Hmap.
  - intros qn rk. rewrite filter_item_bindings, Hmap by done.
    destruct (MqConfig.queues cfg !! qn) as [rks|]; [|done].
    apply (fmap_filter_replicate
             (λ rk', (durable_queue (Some ex) channel qn, Some ex, rk'))).
Qed.

Lemma get_consumers_binds_per_listing_witness :
  never_raises reliable
  ∧ mq_config (self repeated_world) = Some repeated_config
  ∧ exchange (self repeated_world) = Some sample_exchange
  ∧ ∃ consumers w' issued,
      BaseConsumer.get_consumers reliable (new_Consumer reliable) 7 repeated_world
      = (Ok consumers, w')
      ∧ calls w' = calls repeated_world ++ issued
      ∧ length (declared_queues issued) = 2
      ∧ filter (λ b, kombu.q_name b.1.1 = "harvester" ∧ b.2 = "harvest.#")
               (bindings issued)
        = [(durable_queue (Some sample_exchange) 7 "harvester",
            Some sample_exchange, "harvest.#");
           (durable_queue (Some sample_exchange) 7 "harvester",
            Some sample_exchange, "harvest.#")]
      ∧ filter (λ q, kombu.q_name q = "idle") (declared_queues issued)
        = [durable_queue (Some sample_exchange) 7 "idle"]
      ∧ filter (λ b, kombu.q_name b.1.1 = "idle" ∧ b.2 = "harvest.#")
               (bindings issued) = [].
Proof.
  split; [exact reliable_never_raises|]. split; [reflexivity|]. split; [reflexivity|].
  destruct (get_consumers_binds_per_listing reliable 7 repeated_world repeated_config
              sample_exchange reliable_never_raises eq_refl eq_refl)
    as (consumers & w' & issued & Hrun & Hcalls & Hlen & Hdecl & Hbind).
  exists consumers, w', issued. split; [exact Hrun|]. split; [exact Hcalls|].
  split; [exact Hlen|]. split; [exact (Hbind "harvester" "harvest.#")|].
  split; [exact (Hdecl "idle") | exact (Hbind "idle" "harvest.#")].
Defined.

(** [__init__] with an unusable configuration, for any client. *)
Lemma init_inert (env : environment) (mq_config : option MqConfig.t) (w : world) :
  mq_config = None ∨ (∃ cfg, mq_config = Some cfg ∧ incomplete cfg) →
  BaseConsumer.__init__ env mq_config w
  = (Ok tt, {| self := inert mq_config (self w); next_id := next_id w;
               calls := calls w |}).
Proof.
  intros Hcfg. unfold BaseConsumer.__init__.
  destruct Hcfg as [->|(cfg & -> & Hinc)]; [done|].
  assert (Hfalse : truthy (MqConfig.host cfg) && truthy (MqConfig.username cfg)
                   && truthy (MqConfig.password cfg) = false).
  { destruct Hinc as [Hh|[Hu|Hp]].
    - apply ResultProperties.truthy_false in Hh. by rewrite Hh.
    - apply ResultProperties.truthy_false in Hu. rewrite Hu.
      by rewrite andb_false_r.
    - apply ResultProperties.truthy_false in Hp. rewrite Hp.
      by rewrite andb_false_r. }
  by rewrite Hfalse.
Qed.

(** X6: a consumer built from a configuration that lacks the host, the
    user name or the password passes the assertion of [get_consumers] and
    then raises [TypeError] on its missing exchange, before any call is
    issued. *)
Theorem get_consumers_incomplete_config_raises_TypeError (env : environment)
    (Consumer : list kombu.Queue → list kombu.method → bool → M kombu.Consumer)
    (channel : kombu.Channel) (cfg : MqConfig.t) (w : world) :
  incomplete cfg →
  ∃ w',
    BaseConsumer.__init__ env (Some cfg) w = (Ok tt, w')
    ∧ calls w' = calls w
    ∧ BaseConsumer.get_consumers env Consumer channel w' = (Raise TypeError, w').
Proof.
  intros Hinc. eexists. split; [apply init_inert; eauto|]. split; [done|].
  unfold BaseConsumer.get_consumers.
  rewrite bind_unfold. unfold get_self. cbn beta iota. simpl.
  by rewrite bind_unfold.
Qed.

Lemma get_consumers_incomplete_config_raises_TypeError_witness :
  incomplete hostless_config
  ∧ ∃ w',
      BaseConsumer.__init__ reliable (Some hostless_config) fresh_world = (Ok tt, w')
      ∧ calls w' = calls fresh_world
      ∧ BaseConsumer.get_consumers reliable (new_Consumer reliable) 7 w'
        = (Raise TypeError, w').
Proof.
  assert (Hinc : incomplete hostless_config) by (left; left; reflexivity).
  split; [exact Hinc|].
  exact (get_consumers_incomplete_config_raises_TypeError reliable
           (new_Consumer reliable) 7 hostless_config fresh_world Hinc).
Defined.

(** X7: an inert consumer cannot publish: on a consumer built from no
    configuration or an incomplete one, [producer_connection] and [producer]
    raise [AttributeError] without allocating anything or issuing a call,
    and [on_consume_end] has nothing to close. *)
Theorem producer_on_inert_raises_AttributeError (env : environment)
    (retries : option nat) (conn : option kombu.Connection) (channel : kombu.Channel)
    (mq_config : option MqConfig.t) (w : world) :
  mq_config = None ∨ (∃ cfg, mq_config = Some cfg ∧ incomplete cfg) →
  _producer_connection (self w) = None →
  ∃ w',
    BaseConsumer.__init__ env mq_config w = (Ok tt, w')
    ∧ ConsumerProducerMixin.producer_connection env retries w'
      = (Raise (AttributeError "clone"), w')
    ∧ ConsumerProducerMixin.producer env retries w'
      = (Raise (AttributeError "clone"), w')
    ∧ ConsumerProducerMixin.on_consume_end env conn channel w' = (Ok tt, w').
Proof.
  intros Hcfg Hpc. eexists. split; [by apply init_inert|].
  assert (Hconn : ConsumerProducerMixin.producer_connection env retries
                    {| self := inert mq_config (self w); next_id := next_id w;
                       calls := calls w |}
                  = (Raise (AttributeError "clone"),
                     {| self := inert mq_config (self w); next_id := next_id w;
                        calls := calls w |})).
  { unfold ConsumerProducerMixin.producer_connection.
    rewrite bind_unfold. unfold get_self. cbn beta iota. simpl. by rewrite Hpc. }
  split; [exact Hconn|]. split.
  - unfold ConsumerProducerMixin.producer. by rewrite bind_unfold, Hconn.
  - by apply on_consume_end_idle.
Qed.

Lemma producer_on_inert_raises_AttributeError_witness :
  _producer_connection (self fresh_world) = None
  ∧ ∃ w',
      BaseConsumer.__init__ reliable None fresh_world = (Ok tt, w')
      ∧ ConsumerProducerMixin.producer_connection reliable None w'
        = (Raise (AttributeError "clone"), w')
      ∧ ConsumerProducerMixin.producer reliable None w'
        = (Raise (AttributeError "clone"), w')
      ∧ ConsumerProducerMixin.on_consume_end reliable None 7 w' = (Ok tt, w').
Proof.
  split; [reflexivity|].
  exact (producer_on_inert_raises_AttributeError reliable None None 7 None fresh_world
           (or_introl eq_refl) eq_refl).
Defined.

(** X8: when establishing the cloned connection raises, the exception
    reaches the caller of [producer_connection] and of [producer], the clone
    is not cached and no producer is built: the instance is unchanged, so
    the next access clones again. *)
Theorem producer_connection_failure_is_not_cached (env : environment)
    (retries : option nat) (w : world) (c : kombu.Connection) (x : exn) :
  connection (self w) = Some c →
  _producer_connection (self w) = None →
  env (calls w) (kombu.CloneConnection c (clone_of c w)) = None →
  env (calls w ++ [kombu.CloneConnection c (clone_of c w)])
      (kombu.EnsureConnection (clone_of c w) kombu.self_on_connection_error retries)
  = Some x →
  ∃ w',
    ConsumerProducerMixin.producer_connection env retries w = (Raise x, w')
    ∧ ConsumerProducerMixin.producer env retries w = (Raise x, w')
    ∧ self w' = self w
    ∧ next_id w' = S (next_id w)
    ∧ calls w' = calls w ++ [kombu.CloneConnection c (clone_of c w);
                             kombu.EnsureConnection (clone_of c w)
                               kombu.self_on_connection_error retries].
Proof.
  intros Hc Hpc Hclone Hensure.
  assert (Hconn : ConsumerProducerMixin.producer_connection env retries w
                  = (Raise x,
                     {| self := self w; next_id := S (next_id w);
                        calls := (calls w ++ [kombu.CloneConnection c (clone_of c w)])
                                 ++ [kombu.EnsureConnection (clone_of c w)
                                       kombu.self_on_connection_error retries] |})).
  { unfold ConsumerProducerMixin.producer_connection.
    rewrite bind_unfold. unfold get_self. cbn beta iota. rewrite Hpc, Hc.
    unfold clone, mbind, M_bind, mret, M_ret, allocate, call, record. simpl.
    fold (clone_of c w). rewrite Hclone. simpl. by rewrite Hensure. }
  eexists. split; [exact Hconn|]. split.
  - unfold ConsumerProducerMixin.producer. by rewrite bind_unfold, Hconn.
  - simpl. by rewrite <- app_assoc.
Qed.

Lemma producer_connection_failure_is_not_cached_witness :
  _producer_connection (self configured_world) = None
  ∧ ∃ c w',
      connection (self configured_world) = Some c
      ∧ ConsumerProducerMixin.producer broker_down None configured_world
        = (Raise (ClientError "connection refused"), w')
      ∧ self w' = self configured_world.
Proof.
  split; [reflexivity|].
  destruct (producer_connection_failure_is_not_cached broker_down None configured_world
              {| kombu.conn_id := 0; kombu.transport := "librabbitmq";
                 kombu.hostname := VStr "mq"; kombu.userid := VStr "sfm_user";
                 kombu.conn_password := VStr "secret" |}
              (ClientError "connection refused") eq_refl eq_refl eq_refl eq_refl)
    as (w' & _ & Hprod & Hself & _).
  eexists _, w'. split; [reflexivity|]. split; [exact Hprod | exact Hself].
Defined.

(** X9: when closing the publish connection raises, [on_consume_end] raises
    the same exception and keeps the cached reference, so it is not
    idempotent then: a later call closes the same connection a second
    time. *)
Theorem on_consume_end_failure_keeps_reference (env : environment)
    (conn : option kombu.Connection) (channel : kombu.Channel) (w : world)
    (pc : kombu.Connection) (x : exn) :
  _producer_connection (self w) = Some pc →
  env (calls w) (kombu.CloseConnection pc) = Some x →
  ConsumerProducerMixin.on_consume_end env conn channel w
  = (Raise x, extend [kombu.CloseConnection pc] w)
  ∧ _producer_connection (self (extend [kombu.CloseConnection pc] w)) = Some pc
  ∧ (env (calls w ++ [kombu.CloseConnection pc]) (kombu.CloseConnection pc) = None →
     ∃ w',
       ConsumerProducerMixin.on_consume_end env conn channel
         (extend [kombu.CloseConnection pc] w) = (Ok tt, w')
       ∧ closed_connections (calls w') = closed_connections (calls w) ++ [pc; pc]
       ∧ _producer_connection (self w') = None).
Proof.
  intros Hpc Hclose. split; [|split; [exact Hpc|]].
  - unfold ConsumerProducerMixin.on_consume_end.
    rewrite bind_unfold. unfold get_self. cbn beta iota. rewrite Hpc.
    rewrite bind_unfold. unfold call. by rewrite Hclose.
  - intros Hagain.
    destruct (on_consume_end_closes_once_aux env conn channel
                (extend [kombu.CloseConnection pc] w) pc Hpc Hagain)
      as (Hend & Hcleared).
    eexists. split; [exact Hend|]. split; [|exact Hcleared].
    simpl. rewrite !closed_connections_app. simpl. by rewrite <- app_assoc.
Qed.

Lemma on_consume_end_failure_keeps_reference_witness :
  ∃ pc,
    _producer_connection (self publishing_world) = Some pc
    ∧ close_fails (calls publishing_world) (kombu.CloseConnection pc)
      = Some (ClientError "close failed")
    ∧ ConsumerProducerMixin.on_consume_end close_fails None 7 publishing_world
      = (Raise (ClientError "close failed"),
         extend [kombu.CloseConnection pc] publishing_world)
    ∧ _producer_connection (self (extend [kombu.CloseConnection pc] publishing_world))
      = Some pc.
Proof.
  eexists. split; [reflexivity|]. split; [reflexivity|].
  destruct (on_consume_end_failure_keeps_reference close_fails None 7 publishing_world
              _ (ClientError "close failed") eq_refl eq_refl)
    as (Hrun & Hkept & _).
  split; [exact Hrun | exact Hkept].
Defined.

(** X10: a delivery whose metadata holds no routing key makes [_callback]
    raise [KeyError] at once: nothing is stored, the message is not
    acknowledged and the hook is not run. *)
Theorem callback_without_routing_key (env : environment) (on_message : M unit)
    (body : string) (message_obj : kombu.Message) (w : world) :
  kombu.delivery_info message_obj !! "routing_key" = None →
  BaseConsumer._callback env on_message body message_obj w
  = (Raise (KeyError "routing_key"), w).
Proof. intros Hrk. unfold BaseConsumer._callback. by rewrite Hrk. Qed.

Lemma callback_without_routing_key_witness :
  kombu.delivery_info keyless_message !! "routing_key" = None
  ∧ BaseConsumer._callback reliable failing_hook "body" keyless_message configured_world
    = (Raise (KeyError "routing_key"), configured_world).
Proof.
  split; [reflexivity|].
  apply (callback_without_routing_key reliable failing_hook "body" keyless_message
           configured_world).
  reflexivity.
Defined.

(** [_callback] with the hook of the base class, when the
    acknowledgement returns. *)
Lemma callback_stores_and_acks (env : environment) (body : string)
    (message_obj : kombu.Message) (rk : string) (w : world) :
  kombu.delivery_info message_obj !! "routing_key" = Some rk →
  env (calls w) (kombu.Ack message_obj) = None →
  BaseConsumer._callback env BaseConsumer.on_message body message_obj w
  = (Ok tt, {| self := store_delivery body rk (self w); next_id := next_id w;
               calls := calls w ++ [kombu.Ack message_obj] |}).
Proof.
  intros Hrk Hack. unfold BaseConsumer._callback. rewrite Hrk.
  unfold mbind, M_bind, set_routing_key, set_message, modify_self, call, record,
    BaseConsumer.on_message, mret, M_ret.
  simpl. by rewrite Hack.
Qed.

(** X11: on a client whose calls return, a run of deliveries that all carry
    a routing key, handled by the hook of the base class, is acknowledged
    one by one in delivery order, and the instance ends up holding the last
    message delivered and its routing key; earlier messages are overwritten
    and the rest of the instance is untouched. *)
Theorem deliveries_acked_in_order (env : environment)
    (deliveries : list (string * kombu.Message)) (w : world) :
  never_raises env →
  Forall (λ d, is_Some (kombu.delivery_info d.2 !! "routing_key")) deliveries →
  ∃ w',
    deliver_all env BaseConsumer.on_message deliveries w = (Ok tt, w')
    ∧ calls w' = calls w ++ ((λ d, kombu.Ack d.2) <$> deliveries)
    ∧ next_id w' = next_id w
    ∧ (deliveries = [] → self w' = self w)
    ∧ (∀ body message_obj rk,
         last deliveries = Some (body, message_obj) →
         kombu.delivery_info message_obj !! "routing_key" = Some rk →
         self w' = store_delivery body rk (self w)).
Proof.
  intros Henv Hkeys. revert w.
  induction Hkeys as [|[body0 mo0] ds [rk0 Hrk0] Hds IH]; intros w.
  - exists w. split; [done|]. split; [by rewrite app_nil_r|]. done.
  - simpl in Hrk0. unfold deliver_all. simpl for_each.
    rewrite bind_unfold.
    rewrite (callback_stores_and_acks env body0 mo0 rk0 w Hrk0 (Henv _ _)).
    cbn beta iota.
    destruct (IH {| self := store_delivery body0 rk0 (self w); next_id := next_id w;
                    calls := calls w ++ [kombu.Ack mo0] |})
      as (w' & Hrun & Hcalls & Hnext & Hnil & Hlast).
    exists w'. split; [exact Hrun|].
    split; [rewrite Hcalls; simpl; by rewrite <- app_assoc|].
    split; [exact Hnext|]. split; [done|].
    intros body mo rk Hl Hrk. rewrite last_cons in Hl.
    destruct (last ds) as [[body1 mo1]|] eqn:Hlast_ds.
    + injection Hl as -> ->. rewrite (Hlast body mo rk eq_refl Hrk). done.
    + injection Hl as <- <-.
      assert (ds = []) as -> by (by apply last_None).
      rewrite (Hnil eq_refl). simpl. congruence.
Qed.

Lemma deliveries_acked_in_order_witness :
  never_raises reliable
  ∧ Forall (λ d, is_Some (kombu.delivery_info d.2 !! "routing_key"))
           [("start", sample_message); ("stop", stop_message)]
  ∧ ∃ w',
      deliver_all reliable BaseConsumer.on_message
        [("start", sample_message); ("stop", stop_message)] configured_world
      = (Ok tt, w')
      ∧ calls w' = calls configured_world
                   ++ [kombu.Ack sample_message; kombu.Ack stop_message]
      ∧ self w' = store_delivery "stop" "harvest.stop.twitter" (self configured_world).
Proof.
  assert (Hkeys : Forall (λ d, is_Some (kombu.delivery_info d.2 !! "routing_key"))
                         [("start", sample_message); ("stop", stop_message)]).
  { repeat constructor; eexists; reflexivity. }
  split; [exact reliable_never_raises|]. split; [exact Hkeys|].
  destruct (deliveries_acked_in_order reliable
              [("start", sample_message); ("stop", stop_message)] configured_world
              reliable_never_raises Hkeys)
    as (w' & Hrun & Hcalls & _ & _ & Hlast).
  exists w'. split; [exact Hrun|]. split; [exact Hcalls|].
  exact (Hlast "stop" stop_message "harvest.stop.twitter" eq_refl eq_refl).
Defined.

Lemma init_complete_builds_witness :
  never_raises reliable
  ∧ truthy (MqConfig.host sample_config) = true
  ∧ truthy (MqConfig.username sample_config) = true
  ∧ truthy (MqConfig.password sample_config) = true
  ∧ ∃ w',
      BaseConsumer.__init__ reliable (Some sample_config) fresh_world = (Ok tt, w')
      ∧ mq_config (self w') = Some sample_config
      ∧ connection (self w')
        = Some {| kombu.conn_id := 0; kombu.transport := "librabbitmq";
                  kombu.hostname := VStr "mq"; kombu.userid := VStr "sfm_user";
                  kombu.conn_password := VStr "secret" |}
      ∧ exchange (self w') = Some sample_exchange
      ∧ message (self w') = None
      ∧ routing_key (self w') = None.
Proof.
  split; [exact reliable_never_raises|]. do 3 (split; [reflexivity|]).
  exact (init_complete_builds reliable sample_config fresh_world
           reliable_never_raises eq_refl eq_refl eq_refl).
Defined.

Lemma session_closes_once_witness :
  never_raises reliable
  ∧ _producer_connection (self configured_world) = None
  ∧ ∃ c w',
      connection (self configured_world) = Some c
      ∧ session reliable None 3 None 7 configured_world = (Ok tt, w')
      ∧ _producer_connection (self w') = None
      ∧ closed_connections (calls w') = [clone_of c configured_world].
Proof.
  split; [exact reliable_never_raises|]. split; [reflexivity|].
  destruct (session_closes_once reliable None 3 None 7 configured_world
              {| kombu.conn_id := 0; kombu.transport := "librabbitmq";
                 kombu.hostname := VStr "mq"; kombu.userid := VStr "sfm_user";
                 kombu.conn_password := VStr "secret" |}
              reliable_never_raises eq_refl eq_refl)
    as (w' & Hrun & Hcleared & Hclosed).
  eexists _, w'. split; [reflexivity|]. split; [exact Hrun|].
  split; [exact Hcleared | exact Hclosed].
Defined.

End ConsumerCoverage.
